(** * byomcp agent: the per-connection request/response correlation engine

    A shallow embedding of [src/agent/agent.py]: the [ConnectionManager]
    (request ids, the table of pending futures, the listener loop), the
    [DynamicMCPTool] proxy and tool discovery.

    asyncio is cooperative: the code between two [await]s runs atomically.
    A coroutine is therefore modelled as a finite tree whose nodes are the
    state accesses and the [await] points of the source ([coro]); running
    it up to its next [await] is a function ([run]); the event loop, the
    peer and the timers are the environment, which chooses which suspended
    coroutine resumes next and with what. *)

From Stdlib Require Import ZArith String List Bool Lia.
From stdpp Require Import base option list gmap.
Import ListNotations.
Local Open Scope string_scope.
Local Open Scope Z_scope.
Local Open Scope list_scope.
Set Warnings "-register-all".

(** ** Python values, as [json.loads] produces them *)

(** A Python [float]: a binary64 is [m * 2^e], an infinity or a NaN. *)
Inductive pyfloat : Type :=
| FNan
| FInf (negative : bool)
| FFinite (m e : Z).

(** JSON objects become [dict]s with [str] keys; insertion order is kept
    (it is the order [json.dumps] writes), so a dict is an association
    list read at its first match. *)
Inductive pyval : Type :=
| PyNone
| PyBool (b : bool)
| PyInt (n : Z)
| PyFloat (x : pyfloat)
| PyStr (s : string)
| PyList (items : list pyval)
| PyDict (items : list (string * pyval)).

Definition type_name (v : pyval) : string :=
  match v with
  | PyNone => "NoneType"
  | PyBool _ => "bool"
  | PyInt _ => "int"
  | PyFloat _ => "float"
  | PyStr _ => "str"
  | PyList _ => "list"
  | PyDict _ => "dict"
  end.

(** [bool(v)], the test of [if v:]. *)
Definition py_truthy (v : pyval) : bool :=
  match v with
  | PyNone => false
  | PyBool b => b
  | PyInt n => negb (n =? 0)
  | PyFloat (FFinite m _) => negb (m =? 0)
  | PyFloat _ => true
  | PyStr s => negb (String.eqb s "")
  | PyList l => match l with [] => false | _ => true end
  | PyDict d => match d with [] => false | _ => true end
  end.

(** ** Exceptions *)

Inductive exn_class : Type :=
| WebSocketDisconnect
| JSONDecodeError
| TimeoutError
| CancelledError
| TypeError
| AttributeError
| KeyError
| ValidationError
| PydanticSerializationError
| RuntimeError
| OtherException (class_name : string).

(** An exception object: its class and what [str(e)] gives. *)
Record exn : Type := Exn { exn_class_of : exn_class; exn_str : string }.

(** [except Exception] catches everything but the [BaseException]-only
    classes; of those only [asyncio.CancelledError] can arise here. *)
Definition is_Exception (e : exn) : bool :=
  match exn_class_of e with
  | CancelledError => false
  | _ => true
  end.

Definition same_class (a b : exn_class) : bool :=
  match a, b with
  | WebSocketDisconnect, WebSocketDisconnect
  | JSONDecodeError, JSONDecodeError
  | TimeoutError, TimeoutError
  | CancelledError, CancelledError
  | TypeError, TypeError
  | AttributeError, AttributeError
  | KeyError, KeyError
  | ValidationError, ValidationError
  | PydanticSerializationError, PydanticSerializationError
  | RuntimeError, RuntimeError => true
  | OtherException x, OtherException y => String.eqb x y
  | _, _ => false
  end.

(** [except c:] matches [e]. *)
Definition is_class (c : exn_class) (e : exn) : bool :=
  same_class c (exn_class_of e).

(** The outcome of an expression that may raise. *)
Definition res (A : Type) : Type := (exn + A)%type.

(** ** Dictionaries and the operators the source applies to decoded frames *)

Fixpoint dict_lookup (d : list (string * pyval)) (key : string) : option pyval :=
  match d with
  | [] => None
  | (k, v) :: rest => if String.eqb k key then Some v else dict_lookup rest key
  end.

(** [d[key] = v] *)
Fixpoint dict_setitem (d : list (string * pyval)) (key : string) (v : pyval)
  : list (string * pyval) :=
  match d with
  | [] => [(key, v)]
  | (k, x) :: rest =>
      if String.eqb k key then (k, v) :: rest else (k, x) :: dict_setitem rest key v
  end.

Fixpoint is_infix (p s : string) : bool :=
  String.prefix p s ||
  match s with
  | EmptyString => false
  | String _ s' => is_infix p s'
  end.

Definition is_str (key : string) (v : pyval) : bool :=
  match v with
  | PyStr s => String.eqb s key
  | _ => false
  end.

(** [key in v] for a [str] literal [key]: key membership in a dict, element
    membership in a list, substring test in a str, [TypeError] otherwise. *)
Definition py_contains (key : string) (v : pyval) : res bool :=
  match v with
  | PyDict d => inr (bool_decide (is_Some (dict_lookup d key)))
  | PyList l => inr (existsb (is_str key) l)
  | PyStr s => inr (is_infix key s)
  | _ => inl (Exn TypeError
                ("argument of type '" ++ type_name v ++ "' is not iterable")%string)
  end.

(** [v.get(key, default)]: only a dict has the method. *)
Definition py_get (v : pyval) (key : string) (default : pyval) : res pyval :=
  match v with
  | PyDict d => inr (match dict_lookup d key with Some x => x | None => default end)
  | _ => inl (Exn AttributeError
                ("'" ++ type_name v ++ "' object has no attribute 'get'")%string)
  end.

(** [v[key]] for a [str] literal [key]. *)
Definition py_getitem (v : pyval) (key : string) : res pyval :=
  match v with
  | PyDict d =>
      match dict_lookup d key with
      | Some x => inr x
      | None => inl (Exn KeyError ("'" ++ key ++ "'")%string)
      end
  | PyStr _ => inl (Exn TypeError "string indices must be integers, not 'str'")
  | PyList _ => inl (Exn TypeError "list indices must be integers or slices, not str")
  | _ => inl (Exn TypeError ("'" ++ type_name v ++ "' object is not subscriptable")%string)
  end.

(** [for x in v]: the items of a list, the keys of a dict, the characters
    of a str. *)
Fixpoint chars (s : string) : list pyval :=
  match s with
  | EmptyString => []
  | String c s' => PyStr (String c EmptyString) :: chars s'
  end.

Definition py_iter (v : pyval) : res (list pyval) :=
  match v with
  | PyList l => inr l
  | PyDict d => inr (map (fun kv => PyStr (fst kv)) d)
  | PyStr s => inr (chars s)
  | _ => inl (Exn TypeError ("'" ++ type_name v ++ "' object is not iterable")%string)
  end.

(** The key of [pending_mcp_requests] (a [Dict[int, Future]]) that a value
    hashes and compares equal to, if any: [True == 1], [1.0 == 1]. Lists
    and dicts are unhashable. *)
Definition float_int (x : pyfloat) : option Z :=
  match x with
  | FFinite m e =>
      if 0 <=? e then Some (m * 2 ^ e)
      else if m mod 2 ^ (- e) =? 0 then Some (m / 2 ^ (- e)) else None
  | _ => None
  end.

Definition int_key (v : pyval) : res (option Z) :=
  match v with
  | PyNone | PyStr _ => inr None
  | PyBool b => inr (Some (if b then 1 else 0))
  | PyInt n => inr (Some n)
  | PyFloat x => inr (float_int x)
  | PyList _ | PyDict _ =>
      inl (Exn TypeError ("unhashable type: '" ++ type_name v ++ "'")%string)
  end.

(** ** Futures, tasks and the log *)

(** An [asyncio.Future]: pending, completed by [set_result], or cancelled
    (what [asyncio.wait_for] does to it when the timeout expires). *)
Inductive future : Type :=
| FutPending
| FutResult (v : pyval)
| FutCancelled.

Definition future_is_done (f : future) : bool :=
  match f with
  | FutPending => false
  | _ => true
  end.

(** The two coroutine calls the source hands to [asyncio.create_task]. *)
Inductive task_spec : Type :=
| ListenTask
| ProcessAgentMessageTask (message message_id : pyval).

Record task : Type := Task {
  task_body : task_spec;
  task_done : bool;
  task_cancel_requested : bool
}.

(** One constructor per [logging] call of the source, with the values its
    f-string interpolates. *)
Inductive log_record : Type :=
| LogInvalidJson
| LogErrorProcessingMessage (e : exn)
| LogDisconnected
| LogListenerException (e : exn)
| LogCleanedUp
| LogUnknownRequestId (request_id : pyval)
| LogRequestTimeout (request_id : Z)
| LogRequestError (e : exn)
| LogAgentError (e : exn)
| LogToolsError (error : pyval)
| LogModelFailure (tool_name : pyval) (e : exn)
| LogDiscoveryError (e : exn).

Inductive log_level : Type := INFO | WARNING | ERROR.

Definition level_of (r : log_record) : log_level :=
  match r with
  | LogDisconnected | LogCleanedUp => INFO
  | LogUnknownRequestId _ => WARNING
  | _ => ERROR
  end.

(** ** The connection manager and the state around it *)

(** The pydantic model class [jsonschema_to_pydantic] builds from a schema. *)
Inductive pymodel : Type := ModelOf (schema : pyval).

(** [DynamicMCPTool]; its [manager] field is the one manager of the
    connection, [manager] of the [world] below. *)
Record DynamicMCPTool : Type := {
  name : string;
  description : string;
  tool_info : pyval;
  args_schema : option pymodel
}.

Record AgentExecutor : Type := { agent_tools : list DynamicMCPTool }.

(** [ConnectionManager.__init__]'s fields but the websocket; a future and
    a task are named by their position in the tables of [world]. *)
Record ConnectionManager : Type := {
  mcp_request_id : Z;
  pending_mcp_requests : gmap Z nat;
  agent_executor : option AgentExecutor;
  listener_task : option nat
}.

Record world : Type := {
  manager : ConnectionManager;
  futures : list future;
  tasks : list task;
  logged : list log_record
}.

(** [ConnectionManager(websocket)] on a fresh event loop. *)
Definition ConnectionManager_init : ConnectionManager :=
  {| mcp_request_id := 0;
     pending_mcp_requests := ∅;
     agent_executor := None;
     listener_task := None |}.

Definition world_init : world :=
  {| manager := ConnectionManager_init; futures := []; tasks := []; logged := [] |}.

Definition with_manager (f : ConnectionManager -> ConnectionManager) (w : world) : world :=
  {| manager := f (manager w); futures := futures w; tasks := tasks w; logged := logged w |}.

Definition with_futures (f : list future -> list future) (w : world) : world :=
  {| manager := manager w; futures := f (futures w); tasks := tasks w; logged := logged w |}.

Definition with_tasks (f : list task -> list task) (w : world) : world :=
  {| manager := manager w; futures := futures w; tasks := f (tasks w); logged := logged w |}.

Definition with_logged (f : list log_record -> list log_record) (w : world) : world :=
  {| manager := manager w; futures := futures w; tasks := tasks w; logged := f (logged w) |}.

Definition set_mcp_request_id (n : Z) (m : ConnectionManager) : ConnectionManager :=
  {| mcp_request_id := n;
     pending_mcp_requests := pending_mcp_requests m;
     agent_executor := agent_executor m;
     listener_task := listener_task m |}.

Definition set_pending (p : gmap Z nat) (m : ConnectionManager) : ConnectionManager :=
  {| mcp_request_id := mcp_request_id m;
     pending_mcp_requests := p;
     agent_executor := agent_executor m;
     listener_task := listener_task m |}.

Definition set_agent_executor (a : option AgentExecutor) (m : ConnectionManager)
  : ConnectionManager :=
  {| mcp_request_id := mcp_request_id m;
     pending_mcp_requests := pending_mcp_requests m;
     agent_executor := a;
     listener_task := listener_task m |}.

Definition set_listener_task (t : option nat) (m : ConnectionManager) : ConnectionManager :=
  {| mcp_request_id := mcp_request_id m;
     pending_mcp_requests := pending_mcp_requests m;
     agent_executor := agent_executor m;
     listener_task := t |}.

(** ** Coroutines *)

(** A text frame of the websocket is identified with what [json.loads]
    makes of it: a value, or nothing ([JSONDecodeError]). *)
Inductive text_frame : Type :=
| JsonText (v : pyval)
| NotJson.

Definition json_loads (data : text_frame) : res pyval :=
  match data with
  | JsonText v => inr v
  | NotJson => inl (Exn JSONDecodeError "Expecting value")
  end.

(** A coroutine: the accesses to the state and the four things the source
    awaits, each with what follows once the [await] has returned or
    raised. [AwaitSend payload] is
    [await websocket.send_text(json.dumps(payload))]. *)
Inductive coro (A : Type) : Type :=
| Ret (a : A)
| Raise (e : exn)
| Get (k : world -> coro A)
| Put (w : world) (k : coro A)
| AwaitReceive (k : res text_frame -> coro A)
| AwaitSend (payload : pyval) (k : res unit -> coro A)
| AwaitFuture (fut : nat) (timeout : Z) (k : res pyval -> coro A)
| AwaitInvoke (executor : AgentExecutor) (input : pyval) (k : res pyval -> coro A).

Arguments Ret {A} a.
Arguments Raise {A} e.
Arguments Get {A} k.
Arguments Put {A} w k.
Arguments AwaitReceive {A} k.
Arguments AwaitSend {A} payload k.
Arguments AwaitFuture {A} fut timeout k.
Arguments AwaitInvoke {A} executor input k.

Fixpoint bind {A B : Type} (c : coro A) (f : A -> coro B) : coro B :=
  match c with
  | Ret a => f a
  | Raise e => Raise e
  | Get k => Get (fun w => bind (k w) f)
  | Put w k => Put w (bind k f)
  | AwaitReceive k => AwaitReceive (fun o => bind (k o) f)
  | AwaitSend p k => AwaitSend p (fun o => bind (k o) f)
  | AwaitFuture fut t k => AwaitFuture fut t (fun o => bind (k o) f)
  | AwaitInvoke ex i k => AwaitInvoke ex i (fun o => bind (k o) f)
  end.

Declare Scope coro_scope.
Delimit Scope coro_scope with coro.
Notation "x <- c ;; k" := (bind c (fun x => k))
  (at level 100, c at next level, k at level 200, right associativity) : coro_scope.
Notation "c ;;; k" := (bind c (fun _ => k))
  (at level 100, k at level 200, right associativity) : coro_scope.
Local Open Scope coro_scope.

(** [try: c  except ...:] where [handler e] is the body of the first
    [except] clause that matches [e], if one does. *)
Fixpoint try_except {A : Type} (c : coro A) (handler : exn -> option (coro A)) : coro A :=
  match c with
  | Ret a => Ret a
  | Raise e => match handler e with Some h => h | None => Raise e end
  | Get k => Get (fun w => try_except (k w) handler)
  | Put w k => Put w (try_except k handler)
  | AwaitReceive k => AwaitReceive (fun o => try_except (k o) handler)
  | AwaitSend p k => AwaitSend p (fun o => try_except (k o) handler)
  | AwaitFuture fut t k => AwaitFuture fut t (fun o => try_except (k o) handler)
  | AwaitInvoke ex i k => AwaitInvoke ex i (fun o => try_except (k o) handler)
  end.

(** [try: c  finally: final] *)
Fixpoint try_finally {A : Type} (c : coro A) (final : coro unit) : coro A :=
  match c with
  | Ret a => final ;;; Ret a
  | Raise e => final ;;; Raise e
  | Get k => Get (fun w => try_finally (k w) final)
  | Put w k => Put w (try_finally k final)
  | AwaitReceive k => AwaitReceive (fun o => try_finally (k o) final)
  | AwaitSend p k => AwaitSend p (fun o => try_finally (k o) final)
  | AwaitFuture fut t k => AwaitFuture fut t (fun o => try_finally (k o) final)
  | AwaitInvoke ex i k => AwaitInvoke ex i (fun o => try_finally (k o) final)
  end.

Definition lift {A : Type} (r : res A) : coro A :=
  match r with
  | inl e => Raise e
  | inr a => Ret a
  end.

(** The awaited calls; [await] only marks the suspension point. *)
Definition await {A : Type} (c : coro A) : coro A := c.
Definition receive_text : coro text_frame := AwaitReceive lift.
Definition send_text (payload : pyval) : coro unit := AwaitSend payload lift.
Definition wait_for (fut : nat) (timeout : Z) : coro pyval := AwaitFuture fut timeout lift.
Definition ainvoke (executor : AgentExecutor) (input : pyval) : coro pyval :=
  AwaitInvoke executor input lift.

Definition modify (f : world -> world) : coro unit := Get (fun w => Put (f w) (Ret tt)).

Definition log (r : log_record) : coro unit := modify (with_logged (fun l => l ++ [r])).

(** A coroutine run up to its next [await]. *)
Inductive susp (A : Type) : Type :=
| Returned (a : A)
| Raised (e : exn)
| OnReceive (k : res text_frame -> coro A)
| OnSend (payload : pyval) (k : res unit -> coro A)
| OnFuture (fut : nat) (timeout : Z) (k : res pyval -> coro A)
| OnInvoke (executor : AgentExecutor) (input : pyval) (k : res pyval -> coro A).

Arguments Returned {A} a.
Arguments Raised {A} e.
Arguments OnReceive {A} k.
Arguments OnSend {A} payload k.
Arguments OnFuture {A} fut timeout k.
Arguments OnInvoke {A} executor input k.

Fixpoint run {A : Type} (c : coro A) (w : world) : world * susp A :=
  match c with
  | Ret a => (w, Returned a)
  | Raise e => (w, Raised e)
  | Get k => run (k w) w
  | Put w' k => run k w'
  | AwaitReceive k => (w, OnReceive k)
  | AwaitSend p k => (w, OnSend p k)
  | AwaitFuture fut t k => (w, OnFuture fut t k)
  | AwaitInvoke ex i k => (w, OnInvoke ex i k)
  end.

(** ** The asyncio objects the manager touches *)

Definition get : coro world := Get Ret.

(** [asyncio.Future()] *)
Definition Future_new : coro nat :=
  w <- get ;;
  modify (with_futures (fun l => l ++ [FutPending])) ;;;
  Ret (length (futures w)).

(** [future.done()]; every handle the code holds was allocated by
    [Future_new], so the default is never read. *)
Definition Future_done (fut : nat) : coro bool :=
  w <- get ;;
  Ret (future_is_done (default FutPending (futures w !! fut))).

(** [future.set_result(v)], called on a future that is not done. *)
Definition Future_set_result (fut : nat) (v : pyval) : coro unit :=
  modify (with_futures (fun l => <[fut := FutResult v]> l)).

(** [asyncio.create_task(...)] *)
Definition create_task (body : task_spec) : coro nat :=
  w <- get ;;
  modify (with_tasks (fun l => l ++ [Task body false false])) ;;;
  Ret (length (tasks w)).

Definition Task_done (t : nat) : coro bool :=
  w <- get ;;
  Ret (match tasks w !! t with Some x => task_done x | None => true end).

(** [task.cancel()]: a request, taken up at the task's next suspension. *)
Definition Task_cancel (t : nat) : coro unit :=
  modify (with_tasks (fun l =>
    match l !! t with
    | Some x =>
        if task_done x then l
        else <[t := Task (task_body x) false true]> l
    | None => l
    end)).

(** ** [ConnectionManager] *)

(** [start_listening] *)
Definition start_listening : coro unit :=
  t <- create_task ListenTask ;;
  modify (with_manager (set_listener_task (Some t))).

(** [cleanup] *)
Definition cleanup : coro unit :=
  w <- get ;;
  match listener_task (manager w) with
  | Some t =>
      finished <- Task_done t ;;
      if negb finished then Task_cancel t else Ret tt
  | None => Ret tt
  end ;;;
  log LogCleanedUp.

(** [request_id in self.pending_mcp_requests] *)
Definition pending_contains (table : gmap Z nat) (request_id : pyval) : res bool :=
  match int_key request_id with
  | inl e => inl e
  | inr (Some n) => inr (bool_decide (is_Some (table !! n)))
  | inr None => inr false
  end.

(** [self.pending_mcp_requests.pop(request_id)] *)
Definition pending_pop (request_id : pyval) : coro nat :=
  key <- lift (int_key request_id) ;;
  w <- get ;;
  match key ≫= (fun n => pending_mcp_requests (manager w) !! n ≫= (fun fut => Some (n, fut))) with
  | Some (n, fut) =>
      modify (with_manager (fun m => set_pending (delete n (pending_mcp_requests m)) m)) ;;;
      Ret fut
  | None => Raise (Exn KeyError "")
  end.

(** [handle_mcp_response] *)
Definition handle_mcp_response (mcp_data : pyval) : coro unit :=
  request_id <- lift (py_get mcp_data "id" PyNone) ;;
  w <- get ;;
  present <- lift (pending_contains (pending_mcp_requests (manager w)) request_id) ;;
  if present then
    fut <- pending_pop request_id ;;
    finished <- Future_done fut ;;
    if negb finished then Future_set_result fut mcp_data else Ret tt
  else
    log (LogUnknownRequestId request_id).

(** The timeout of [asyncio.wait_for(future, timeout=15.0)], in seconds. *)
Definition request_timeout : Z := 15.

(** [send_mcp_request]; [params] defaults to [PyNone]. *)
Definition send_mcp_request (method : string) (params : pyval) : coro pyval :=
  modify (with_manager (fun m => set_mcp_request_id (mcp_request_id m + 1) m)) ;;;
  w <- get ;;
  let request_id := mcp_request_id (manager w) in
  let mcp_request :=
    [("jsonrpc", PyStr "2.0"); ("method", PyStr method); ("id", PyInt request_id)] in
  let mcp_request :=
    if py_truthy params then dict_setitem mcp_request "params" params else mcp_request in
  fut <- Future_new ;;
  modify (with_manager (fun m =>
    set_pending (<[request_id := fut]> (pending_mcp_requests m)) m)) ;;;
  try_except
    (await (send_text (PyDict mcp_request)) ;;;
     response <- await (wait_for fut request_timeout) ;;
     Ret response)
    (fun e =>
       if is_class TimeoutError e then
         Some (log (LogRequestTimeout request_id) ;;; Raise e)
       else if is_Exception e then
         Some (log (LogRequestError e) ;;;
               modify (with_manager (fun m =>
                 set_pending (delete request_id (pending_mcp_requests m)) m)) ;;;
               Raise e)
       else None).

(** [if message_id: response["messageId"] = message_id], then the
    response as it is passed to [json.dumps]. *)
Definition with_message_id (response : list (string * pyval)) (message_id : pyval)
  : pyval :=
  PyDict (if py_truthy message_id
          then dict_setitem response "messageId" message_id
          else response).

(** [process_agent_message]; [py_str] is Python's [str]. *)
Section ProcessAgentMessage.
Variable py_str : pyval -> string.

Definition process_agent_message (message message_id : pyval) : coro unit :=
  w <- get ;;
  match agent_executor (manager w) with
  | None =>
      let response := [("error", PyStr "Agent not ready")] in
      await (send_text (with_message_id response message_id))
  | Some executor =>
      try_except
        (result <- await (ainvoke executor (PyDict [("input", message)])) ;;
         output <- lift (py_get result "output" (PyStr (py_str result))) ;;
         let response := [("result", output)] in
         await (send_text (with_message_id response message_id)))
        (fun e =>
           if is_Exception e then
             Some (log (LogAgentError e) ;;;
                   let response := [("error", PyStr (exn_str e))] in
                   await (send_text (with_message_id response message_id)))
           else None)
  end.
End ProcessAgentMessage.

(** [listen] is [try: while True: <a turn>  except ...: log  finally:
    self.cleanup()]. Its loop has no exit of its own: a turn ends, and the
    next one starts, or an exception leaves the loop and the function. The
    turn and the way out are two definitions, which [step] below chains
    for every sequence of frames.

    One turn of the loop (lines 31-45): *)
Definition listen_iteration : coro unit :=
  data <- await receive_text ;;
  try_except
    (message_data <- lift (json_loads data) ;;
     has_jsonrpc <- lift (py_contains "jsonrpc" message_data) ;;
     is_reply <- (if has_jsonrpc
                  then has_method <- lift (py_contains "method" message_data) ;;
                       Ret (negb has_method)
                  else Ret false) ;;
     if is_reply then
       handle_mcp_response message_data
     else
       message <- lift (py_get message_data "message" (PyStr "")) ;;
       message_id <- lift (py_get message_data "messageId" PyNone) ;;
       if py_truthy message then
         create_task (ProcessAgentMessageTask message message_id) ;;; Ret tt
       else Ret tt)
    (fun e =>
       if is_class JSONDecodeError e then Some (log LogInvalidJson)
       else if is_Exception e then Some (log (LogErrorProcessingMessage e))
       else None).

(** What [listen] does with an exception [e] that leaves the loop
    (lines 47-52): the two [except] clauses, then [finally]. *)
Definition listen_exit (e : exn) : coro unit :=
  try_finally
    (try_except (Raise e)
       (fun e =>
          if is_class WebSocketDisconnect e then Some (log LogDisconnected)
          else if is_Exception e then Some (log (LogListenerException e))
          else None))
    cleanup.

(** ** [DynamicMCPTool] and discovery *)

(** pydantic's validation of the fields [name: str], [description: str]
    when [DynamicMCPTool(...)] is built. *)
Definition DynamicMCPTool_new (tool_name tool_description info : pyval)
    (schema : option pymodel) : res DynamicMCPTool :=
  match tool_name, tool_description with
  | PyStr n, PyStr d =>
      inr {| name := n; description := d; tool_info := info; args_schema := schema |}
  | _, _ => inl (Exn ValidationError "validation error for DynamicMCPTool")
  end.

Section Tools.
(** Python's [str], pydantic's [to_jsonable_python] on the keyword
    arguments of a call (Python objects, [pyobj]), and
    [jsonschema_to_pydantic]. *)
Variable py_str : pyval -> string.
Variable pyobj : Type.
Variable to_jsonable_python : pyobj -> res pyval.
Variable jsonschema_to_pydantic : pyval -> res pymodel.

(** [DynamicMCPTool._arun] *)
Definition _arun (self : DynamicMCPTool) (kwargs : pyobj) : coro string :=
  try_except
    (serializable_kwargs <- lift (to_jsonable_python kwargs) ;;
     let params := PyDict [("name", PyStr (name self));
                           ("arguments", serializable_kwargs)] in
     response <- send_mcp_request "tools/call" params ;;
     has_error <- lift (py_contains "error" response) ;;
     if has_error then
       error <- lift (py_getitem response "error") ;;
       Ret ("Error calling " ++ name self ++ ": " ++ py_str error)%string
     else
       result <- lift (py_get response "result" (PyDict [])) ;;
       Ret (py_str result))
    (fun e =>
       if is_Exception e then
         Some (Ret ("Error calling " ++ name self ++ ": " ++ exn_str e)%string)
       else None).

(** The body of [for tool_info in tools_data] (lines 171-188), with the
    list [tools] built so far. *)
Fixpoint create_tools (tools_data : list pyval) (tools : list DynamicMCPTool)
  : coro (list DynamicMCPTool) :=
  match tools_data with
  | [] => Ret tools
  | info :: rest =>
      tool_name <- lift (py_getitem info "name") ;;
      has_schema <- lift (py_contains "inputSchema" info) ;;
      schema <- (if has_schema then
                   try_except
                     (input_schema <- lift (py_getitem info "inputSchema") ;;
                      model <- lift (jsonschema_to_pydantic input_schema) ;;
                      Ret (Some model))
                     (fun e =>
                        if is_Exception e then
                          Some (log (LogModelFailure tool_name e) ;;; Ret None)
                        else None)
                 else Ret None) ;;
      tool_description <- lift (py_getitem info "description") ;;
      tool <- lift (DynamicMCPTool_new tool_name tool_description info schema) ;;
      create_tools rest (tools ++ [tool])
  end.

(** [discover_and_create_tools] *)
Definition discover_and_create_tools : coro (list DynamicMCPTool) :=
  try_except
    (response <- send_mcp_request "tools/list" PyNone ;;
     has_error <- lift (py_contains "error" response) ;;
     if has_error then
       error <- lift (py_getitem response "error") ;;
       log (LogToolsError error) ;;;
       Ret []
     else
       result <- lift (py_get response "result" (PyDict [])) ;;
       tools_data <- lift (py_get result "tools" (PyList [])) ;;
       items <- lift (py_iter tools_data) ;;
       create_tools items [])
    (fun e =>
       if is_Exception e then Some (log (LogDiscoveryError e) ;;; Ret [])
       else None).
End Tools.

(** ** A connection's life: the manager and the calls in flight

    The environment of the manager is every task that calls
    [send_mcp_request] (discovery, the tools the agent invokes while it
    processes a work item), the websocket, and the event loop's timers. A
    [session] holds the state, the calls of [send_mcp_request] made so far
    (each where its coroutine stands) and whether [listen]'s loop is still
    running; an [event] is one atomic step of one of them. *)

Record call : Type := {
  request : pyval;              (* the frame the call handed to [send_text] *)
  progress : susp pyval
}.

Record session : Type := {
  state : world;
  calls : list call;
  listening : bool
}.

Inductive event : Type :=
| Call (method : string) (params : pyval)  (* a task calls [send_mcp_request] *)
| SendReturns (i : nat) (o : res unit)     (* call [i]'s [send_text] returns or raises *)
| ResultReady (i : nat)                    (* call [i]'s [wait_for] returns the result *)
| TimerFires (i : nat)                     (* call [i]'s [wait_for] times out *)
| CallerCancelled (i : nat)                (* the task of call [i] is cancelled while waiting *)
| Receive (o : res text_frame).            (* [listen]'s [receive_text] returns or raises *)

Definition sent_frame {A : Type} (p : susp A) : pyval :=
  match p with
  | OnSend payload _ => payload
  | _ => PyNone
  end.

Definition resume (s : session) (i : nat) (r : pyval) (c : coro pyval) (w : world)
  : session :=
  let (w', p) := run c w in
  {| state := w';
     calls := <[i := {| request := r; progress := p |}]> (calls s);
     listening := listening s |}.

(** The event loop marks a task whose coroutine has ended. *)
Definition finish_task (t : option nat) (w : world) : world :=
  match t with
  | Some i =>
      with_tasks (fun l =>
        match l !! i with
        | Some x => <[i := Task (task_body x) true (task_cancel_requested x)]> l
        | None => l
        end) w
  | None => w
  end.

(** One turn of the loop, once [receive_text] has returned or raised [o]. *)
Definition listen_turn (o : res text_frame) (w : world) : world * susp unit :=
  match run listen_iteration w with
  | (w', OnReceive k) => run (k o) w'
  | r => r
  end.

Definition step (s : session) (ev : event) : option session :=
  match ev with
  | Call method params =>
      let (w', p) := run (send_mcp_request method params) (state s) in
      Some {| state := w';
              calls := calls s ++ [{| request := sent_frame p; progress := p |}];
              listening := listening s |}
  | SendReturns i o =>
      match calls s !! i with
      | Some {| request := r; progress := OnSend _ k |} =>
          Some (resume s i r (k o) (state s))
      | _ => None
      end
  | ResultReady i =>
      match calls s !! i with
      | Some {| request := r; progress := OnFuture fut _ k |} =>
          match futures (state s) !! fut with
          | Some (FutResult v) => Some (resume s i r (k (inr v)) (state s))
          | _ => None
          end
      | _ => None
      end
  | TimerFires i =>
      match calls s !! i with
      | Some {| request := r; progress := OnFuture fut _ k |} =>
          match futures (state s) !! fut with
          | Some FutPending =>
              Some (resume s i r (k (inl (Exn TimeoutError "")))
                      (with_futures (fun l => <[fut := FutCancelled]> l) (state s)))
          | _ => None
          end
      | _ => None
      end
  | CallerCancelled i =>
      match calls s !! i with
      | Some {| request := r; progress := OnFuture fut _ k |} =>
          match futures (state s) !! fut with
          | Some FutPending =>
              Some (resume s i r (k (inl (Exn CancelledError "")))
                      (with_futures (fun l => <[fut := FutCancelled]> l) (state s)))
          | _ => None
          end
      | _ => None
      end
  | Receive o =>
      if listening s then
        match listen_turn o (state s) with
        | (w, Returned _) =>
            Some {| state := w; calls := calls s; listening := true |}
        | (w, Raised e) =>
            let w' := fst (run (listen_exit e) w) in
            Some {| state := finish_task (listener_task (manager w')) w';
                    calls := calls s;
                    listening := false |}
        | _ => None
        end
      else None
  end.

Fixpoint steps (s : session) (evs : list event) : option session :=
  match evs with
  | [] => Some s
  | ev :: rest =>
      match step s ev with
      | Some s' => steps s' rest
      | None => None
      end
  end.

(** The connection once [websocket_chat] has built the manager and called
    [start_listening] (lines 213-216). *)
Definition session_init : session :=
  {| state := fst (run start_listening world_init); calls := []; listening := true |}.

(** ** One coroutine run to its end

    [drive o c w sent] runs [c] from [w] until it returns or raises, each
    [await] returning or raising what [o] says, and adds to [sent] the
    frames passed to [send_text], in order. *)

Record outcomes : Type := {
  of_receive : res text_frame;
  of_send : pyval -> res unit;
  of_future : res pyval;
  of_invoke : res pyval
}.

Fixpoint drive {A : Type} (o : outcomes) (c : coro A) (w : world) (sent : list pyval)
  : world * list pyval * res A :=
  match c with
  | Ret a => (w, sent, inr a)
  | Raise e => (w, sent, inl e)
  | Get k => drive o (k w) w sent
  | Put w' k => drive o k w' sent
  | AwaitReceive k => drive o (k (of_receive o)) w sent
  | AwaitSend payload k => drive o (k (of_send o payload)) w (sent ++ [payload])
  | AwaitFuture _ _ k => drive o (k (of_future o)) w sent
  | AwaitInvoke _ _ k => drive o (k (of_invoke o)) w sent
  end.

(** * Properties *)

(** ** What a call of [send_mcp_request] does, segment by segment *)

(** The frame [send_mcp_request] builds (lines 79-85). *)
Definition request_frame (method : string) (params : pyval) (request_id : Z) : pyval :=
  PyDict (let mcp_request :=
            [("jsonrpc", PyStr "2.0"); ("method", PyStr method); ("id", PyInt request_id)] in
          if py_truthy params then dict_setitem mcp_request "params" params
          else mcp_request).

(** The state once a call has run to its first [await] (lines 76-88). *)
Definition issued (w : world) : world :=
  let request_id := mcp_request_id (manager w) + 1 in
  with_manager (fun m =>
      set_pending (<[request_id := length (futures w)]> (pending_mcp_requests m)) m)
    (with_futures (fun l => l ++ [FutPending])
       (with_manager (set_mcp_request_id request_id) w)).

(** The state once the [except] clauses of [send_mcp_request] have dealt
    with [e] (lines 94-100). *)
Definition request_failed (request_id : Z) (e : exn) (w : world) : world :=
  if is_class TimeoutError e then
    with_logged (fun l => l ++ [LogRequestTimeout request_id]) w
  else if is_Exception e then
    with_manager (fun m => set_pending (delete request_id (pending_mcp_requests m)) m)
      (with_logged (fun l => l ++ [LogRequestError e]) w)
  else w.

(** A call suspended in [wait_for]: it returns the result it is given, or
    fails through the [except] clauses. *)
Definition waits_as (request_id : Z) (k : res pyval -> coro pyval) : Prop :=
  (forall v w, run (k (inr v)) w = (w, Returned v)) /\
  (forall e w, run (k (inl e)) w = (request_failed request_id e w, Raised e)).

(** A call suspended in [send_text]. *)
Definition sends_as (request_id : Z) (fut : nat) (k : res unit -> coro pyval) : Prop :=
  (forall w, exists k',
      run (k (inr tt)) w = (w, OnFuture fut request_timeout k') /\ waits_as request_id k') /\
  (forall e w, run (k (inl e)) w = (request_failed request_id e w, Raised e)).

(** ** Replies and requests *)

(** [mcp_data.get("id")] is a key equal to [n]: the test by which
    [handle_mcp_response] finds the pending entry of request [n]. *)
Definition replies_to (n : Z) (mcp_data : pyval) : bool :=
  match py_get mcp_data "id" PyNone with
  | inr request_id =>
      match int_key request_id with
      | inr (Some m) => m =? n
      | _ => false
      end
  | inl _ => false
  end.

(** The ["id"] of the request a call sent. *)
Definition request_id_of (c : call) : option Z :=
  match py_get (request c) "id" PyNone with
  | inr (PyInt n) => Some n
  | _ => None
  end.

(** [listen] takes a decoded frame for a reply (line 34). *)
Definition reply_shaped (message_data : pyval) : bool :=
  match py_contains "jsonrpc" message_data, py_contains "method" message_data with
  | inr true, inr false => true
  | _, _ => false
  end.

(** ** The invariant of a connection *)

Definition call_ok (i : nat) (c : call) : Prop :=
  let n := Z.of_nat i + 1 in
  request_id_of c = Some n /\
  match progress c with
  | OnSend _ k => sends_as n i k
  | OnFuture fut t k => fut = i /\ t = request_timeout /\ waits_as n k
  | Returned v => replies_to n v = true
  | Raised _ => True
  | _ => False
  end.

Definition in_flight (c : call) : bool :=
  match progress c with
  | OnSend _ _ | OnFuture _ _ _ => true
  | _ => false
  end.

Record session_ok (s : session) : Prop := {
  ok_counter : mcp_request_id (manager (state s)) = Z.of_nat (length (calls s));
  ok_futures : length (futures (state s)) = length (calls s);
  ok_pending : forall n fut,
      pending_mcp_requests (manager (state s)) !! n = Some fut ->
      n = Z.of_nat fut + 1 /\ (fut < length (calls s))%nat;
  ok_results : forall fut v,
      futures (state s) !! fut = Some (FutResult v) ->
      replies_to (Z.of_nat fut + 1) v = true;
  ok_calls : forall i c, calls s !! i = Some c -> call_ok i c;
  ok_waiting : forall i c,
      calls s !! i = Some c -> in_flight c = true ->
      futures (state s) !! i = Some FutPending ->
      pending_mcp_requests (manager (state s)) !! (Z.of_nat i + 1) = Some i
}.

(** ** What one turn of [listen] does to the state *)

Definition log1 (r : log_record) (w : world) : world :=
  with_logged (fun l => l ++ [r]) w.

(** [handle_mcp_response mcp_data], run in state [w]. *)
Definition resolved (mcp_data : pyval) (w : world) : world * susp unit :=
  match py_get mcp_data "id" PyNone with
  | inl e => (w, Raised e)
  | inr request_id =>
      match int_key request_id with
      | inl e => (w, Raised e)
      | inr None => (log1 (LogUnknownRequestId request_id) w, Returned tt)
      | inr (Some n) =>
          match pending_mcp_requests (manager w) !! n with
          | None => (log1 (LogUnknownRequestId request_id) w, Returned tt)
          | Some fut =>
              let w' :=
                with_manager (fun m =>
                  set_pending (delete n (pending_mcp_requests m)) m) w in
              if future_is_done (default FutPending (futures w !! fut))
              then (w', Returned tt)
              else (with_futures (fun l => <[fut := FutResult mcp_data]> l) w',
                    Returned tt)
          end
      end
  end.

(** The [else] branch of [listen] (lines 37-40) on a frame that is not
    reply shaped; what it raises is logged by line 45. *)
Definition accepted (message_data : pyval) (w : world) : world :=
  match py_contains "jsonrpc" message_data,
        py_get message_data "message" (PyStr ""),
        py_get message_data "messageId" PyNone with
  | inl e, _, _ => log1 (LogErrorProcessingMessage e) w
  | inr _, inr message, inr message_id =>
      if py_truthy message then
        with_tasks (fun l =>
          l ++ [Task (ProcessAgentMessageTask message message_id) false false]) w
      else w
  | inr _, inl e, _ => log1 (LogErrorProcessingMessage e) w
  | inr _, inr _, inl e => log1 (LogErrorProcessingMessage e) w
  end.

(** The state after the turn that received [data]. *)
Definition dispatched (data : text_frame) (w : world) : world :=
  match data with
  | NotJson => log1 LogInvalidJson w
  | JsonText message_data =>
      if reply_shaped message_data then
        match resolved message_data w with
        | (w', Raised e) => log1 (LogErrorProcessingMessage e) w'
        | (w', _) => w'
        end
      else accepted message_data w
  end.

(** How a turn of the loop can change the state: not at all, by a log
    record, by a new task, or by taking the entry of a request out of the
    table, completing its future unless that is done already. *)
Definition popped (n : Z) (w : world) : world :=
  with_manager (fun m => set_pending (delete n (pending_mcp_requests m)) m) w.

Inductive turn_effect (w : world) : world -> Prop :=
| turn_same : turn_effect w w
| turn_logged (r : log_record) : turn_effect w (log1 r w)
| turn_spawned (t : task) : turn_effect w (with_tasks (fun l => l ++ [t]) w)
| turn_late (n : Z) (fut : nat) :
    pending_mcp_requests (manager w) !! n = Some fut ->
    future_is_done (default FutPending (futures w !! fut)) = true ->
    turn_effect w (popped n w)
| turn_delivered (n : Z) (fut : nat) (v : pyval) :
    pending_mcp_requests (manager w) !! n = Some fut ->
    replies_to n v = true ->
    future_is_done (default FutPending (futures w !! fut)) = false ->
    turn_effect w (with_futures (fun l => <[fut := FutResult v]> l) (popped n w)).

(** The state after [cleanup]. *)
Definition cleaned (w : world) : world :=
  log1 LogCleanedUp
    match listener_task (manager w) with
    | Some t =>
        match tasks w !! t with
        | Some x =>
            if task_done x then w
            else with_tasks (fun l => <[t := Task (task_body x) false true]> l) w
        | None => w
        end
    | None => w
    end.

(** The state after [listen] has left its loop on [e]. *)
Definition torn_down (e : exn) (w : world) : world :=
  cleaned (if is_class WebSocketDisconnect e then log1 LogDisconnected w
           else if is_Exception e then log1 (LogListenerException e) w
           else w).

(** ** Scenarios *)

Definition reply_frame (n : Z) (result : pyval) : pyval :=
  PyDict [("jsonrpc", PyStr "2.0"); ("id", PyInt n); ("result", result)].

(** Two calls in flight, their replies arriving in the opposite order. *)
Definition two_calls : list event :=
  [Call "tools/call" (PyDict [("name", PyStr "a")]);
   Call "tools/call" (PyDict [("name", PyStr "b")]);
   SendReturns 0 (inr tt); SendReturns 1 (inr tt);
   Receive (inr (JsonText (reply_frame 2 (PyStr "B"))));
   Receive (inr (JsonText (reply_frame 1 (PyStr "A"))));
   ResultReady 1; ResultReady 0].

Definition two_calls_end : session :=
  Eval vm_compute in default session_init (steps session_init two_calls).

(** A call left waiting when the peer disconnects. *)
Definition one_call_waiting : list event :=
  [Call "tools/list" PyNone; SendReturns 0 (inr tt)].

Definition disconnect : exn := Exn WebSocketDisconnect "".

Definition abandoned : list event :=
  one_call_waiting ++ [Receive (inl disconnect)].

(** A call whose reply comes after its timeout. *)
Definition timed_out : list event :=
  one_call_waiting ++ [TimerFires 0].

Definition late_reply : list event :=
  timed_out ++ [Receive (inr (JsonText (reply_frame 1 (PyDict []))))].

(** A future without a result: pending, or cancelled by a timeout or by
    the cancellation of its caller. *)
Definition unanswered (x : option future) : Prop :=
  x = Some FutPending \/ x = Some FutCancelled.

Definition one_call_waiting_end : session :=
  Eval vm_compute in default session_init (steps session_init one_call_waiting).

Definition abandoned_end : session :=
  Eval vm_compute in default session_init (steps session_init abandoned).

Definition timed_out_end : session :=
  Eval vm_compute in default session_init (steps session_init timed_out).

Definition late_reply_end : session :=
  Eval vm_compute in default session_init (steps session_init late_reply).

(** The ["message"] field of a decoded frame, when it is a JSON object
    that has one. *)
Definition message_of (message_data : pyval) : option pyval :=
  match message_data with
  | PyDict d => dict_lookup d "message"
  | _ => None
  end.

(** The record by which a turn of [listen] logs a reply it drops: the
    warning of [handle_mcp_response], or the error of line 45 for what
    [handle_mcp_response] raised. *)
Definition drop_record (r : log_record) : Prop :=
  (exists request_id, r = LogUnknownRequestId request_id) \/
  (exists e, r = LogErrorProcessingMessage e).

(** ** Scenarios for single coroutines *)

(** Every send is accepted; the awaited future yields [response] and the
    agent returns [answer]. *)
Definition answering (response answer : res pyval) : outcomes :=
  {| of_receive := inl disconnect;
     of_send := fun _ => inr tt;
     of_future := response;
     of_invoke := answer |}.

(** [str] where it is the identity: on a [str]. The scenarios apply it to
    nothing else. *)
Definition str_of_str (v : pyval) : string :=
  match v with
  | PyStr s => s
  | _ => ""
  end.

(** The agent answers a work item with the output "done". *)
Definition agent_done : outcomes :=
  answering (inr PyNone) (inr (PyDict [("output", PyStr "done")])).

(** A connection whose discovery is over: an agent is bound. *)
Definition ready : world :=
  with_manager (set_agent_executor (Some {| agent_tools := [] |})) world_init.

(** ** Discovery *)

Section ToolSpec.
Variable jsonschema_to_pydantic : pyval -> res pymodel.

(** The proxy of a descriptor: a JSON object whose "name" and
    "description" are strings; its [args_schema] is the model of its
    "inputSchema" when it has one that converts. *)
Definition tool_of (info : pyval) : option DynamicMCPTool :=
  match info with
  | PyDict d =>
      match dict_lookup d "name", dict_lookup d "description" with
      | Some (PyStr n), Some (PyStr text) =>
          Some {| name := n;
                  description := text;
                  tool_info := info;
                  args_schema :=
                    match dict_lookup d "inputSchema" with
                    | Some schema =>
                        match jsonschema_to_pydantic schema with
                        | inr model => Some model
                        | inl _ => None
                        end
                    | None => None
                    end |}
      | _, _ => None
      end
  | _ => None
  end.

(** The log record of a descriptor whose "inputSchema" does not convert. *)
Definition conversion_failure (info : pyval) : list log_record :=
  match info with
  | PyDict d =>
      match dict_lookup d "inputSchema" with
      | Some schema =>
          match jsonschema_to_pydantic schema with
          | inl e => [LogModelFailure (default PyNone (dict_lookup d "name")) e]
          | inr _ => []
          end
      | None => []
      end
  | _ => []
  end.
End ToolSpec.

(** A descriptor: a JSON object whose "name" and "description" are
    strings. *)
Definition is_descriptor (info : pyval) : bool :=
  match info with
  | PyDict d =>
      match dict_lookup d "name", dict_lookup d "description" with
      | Some (PyStr _), Some (PyStr _) => true
      | _, _ => false
      end
  | _ => false
  end.

(** A converter that rejects every schema but the empty object. *)
Definition strict_converter (schema : pyval) : res pymodel :=
  match schema with
  | PyDict [] => inr (ModelOf schema)
  | _ => inl (Exn (OtherException "ValueError") "unsupported schema")
  end.

Definition descriptor (tool_name : string) (fields : list (string * pyval)) : pyval :=
  PyDict ([("name", PyStr tool_name); ("description", PyStr "")] ++ fields).

Definition tools_reply (field : string) (descriptors : list pyval) : pyval :=
  reply_frame 1 (PyDict [(field, PyList descriptors)]).

Definition fill_tool : DynamicMCPTool :=
  {| name := "fill"; description := ""; tool_info := descriptor "fill" [];
     args_schema := None |}.

(** The peer answers the call of a tool with the result ["ok"]; with the
    result [5]. *)
Definition answers_ok : outcomes :=
  answering (inr (reply_frame 1 (PyStr "ok"))) (inr PyNone).

Definition answers_five : outcomes :=
  answering (inr (reply_frame 1 (PyInt 5))) (inr PyNone).

(** The peer lists a tool whose schema does not convert and one without a
    schema, under "tools"; it lists a tool under "capabilities". *)
Definition two_descriptors : list pyval :=
  [descriptor "bad" [("inputSchema", PyStr "?")]; descriptor "good" []].

Definition lists_tools : outcomes :=
  answering (inr (tools_reply "tools" two_descriptors)) (inr PyNone).

Definition lists_capabilities : outcomes :=
  answering (inr (tools_reply "capabilities" [descriptor "fill" []])) (inr PyNone).

(** The peer lists a tool whose schema does not convert and, after it, a
    descriptor without a "description". *)
Definition failing_then_malformed : list pyval :=
  [descriptor "bad" [("inputSchema", PyStr "?")]; PyDict [("name", PyStr "worse")]].

Definition lists_a_malformed_descriptor : outcomes :=
  answering (inr (tools_reply "tools" failing_then_malformed)) (inr PyNone).

(** * Further properties *)

(** ** Futures over the life of a connection *)

(** A future a call can still be resumed from: pending, or completed. *)
Definition alive (x : option future) : Prop :=
  x = Some FutPending \/ exists v, x = Some (FutResult v).

(** Every future in the table is without a result, the future of a call
    in flight has not been cancelled, and a call that has returned holds
    the result of its future. *)
Record futures_ok (s : session) : Prop := {
  ok_table : forall n fut,
      pending_mcp_requests (manager (state s)) !! n = Some fut ->
      unanswered (futures (state s) !! fut);
  ok_alive : forall i c,
      calls s !! i = Some c -> in_flight c = true -> alive (futures (state s) !! i);
  ok_returned : forall i c v,
      calls s !! i = Some c -> progress c = Returned v ->
      futures (state s) !! i = Some (FutResult v)
}.

(** Call [i] is suspended in [wait_for]; in [send_text]. *)
Definition waiting (s : session) (i : nat) : bool :=
  match calls s !! i with
  | Some {| progress := OnFuture _ _ _ |} => true
  | _ => false
  end.

Definition sending (s : session) (i : nat) : bool :=
  match calls s !! i with
  | Some {| progress := OnSend _ _ |} => true
  | _ => false
  end.

(** The outcome of call [i], once it has one. *)
Definition outcome (s : session) (i : nat) : option (res pyval) :=
  match calls s !! i with
  | Some {| progress := Returned v |} => Some (inr v)
  | Some {| progress := Raised e |} => Some (inl e)
  | _ => None
  end.

(** The send of a call fails: the websocket is closed, say. *)
Definition closed_socket : exn := Exn RuntimeError "WebSocket is not connected".

(** A call that has just been made: its frame is not sent yet. *)
Definition one_call_sending : list event := [Call "tools/list" PyNone].

Definition one_call_sending_end : session :=
  Eval vm_compute in default session_init (steps session_init one_call_sending).

(** ** Single functions *)

(** A value that can be the key of a dict: lists and dicts cannot. *)
Definition hashable (v : pyval) : bool :=
  match v with
  | PyList _ | PyDict _ => false
  | _ => true
  end.

(** The value of a float is the integer [n]. *)
Definition float_is (x : pyfloat) (n : Z) : Prop :=
  match x with
  | FFinite m e => (0 <= e /\ n = m * 2 ^ e) \/ (e < 0 /\ m = n * 2 ^ (- e))
  | _ => False
  end.

(** The binary64 float 1.0, as mantissa and exponent. *)
Definition float_one : pyfloat := FFinite 4503599627370496 (-52).

(** ** Coroutines on a websocket that refuses what is sent *)

(** Every send raises [e]; the agent returns or raises [answer]. *)
Definition unsendable (e : exn) (answer : res pyval) : outcomes :=
  {| of_receive := inl disconnect;
     of_send := fun _ => inl e;
     of_future := inr PyNone;
     of_invoke := answer |}.

(** The task is cancelled while it awaits. *)
Definition cancelled : exn := Exn CancelledError "".

(** Keyword arguments for the scenarios: a JSON value, or an object of a
    class pydantic has no serialiser for. *)
Definition serialise (x : option pyval) : res pyval :=
  match x with
  | Some v => inr v
  | None => inl (Exn PydanticSerializationError "Unable to serialize unknown type")
  end.

(** ** Replies to discovery that are not as expected *)

(** A JSON object; a JSON value that cannot be iterated: null, a boolean
    or a number. *)
Definition is_object (v : pyval) : bool :=
  match v with
  | PyDict _ => true
  | _ => false
  end.

Definition scalar (v : pyval) : bool :=
  match v with
  | PyNone | PyBool _ | PyInt _ | PyFloat _ => true
  | _ => false
  end.

(** The peer lists a tool and a descriptor without a "description". *)
Definition one_bad_descriptor : list pyval :=
  [descriptor "good" []; PyDict [("name", PyStr "bad")]].

Definition lists_a_bad_descriptor : outcomes :=
  answering (inr (tools_reply "tools" one_bad_descriptor)) (inr PyNone).

(** The peer answers with ["tools": null]. *)
Definition lists_null : outcomes :=
  answering (inr (reply_frame 1 (PyDict [("tools", PyNone)]))) (inr PyNone).

(** * Proofs *)

(** ** Segments of [send_mcp_request] *)

Lemma request_failed_futures n e w : futures (request_failed n e w) = futures w.
Proof. unfold request_failed. destruct (is_class TimeoutError e), (is_Exception e); reflexivity. Qed.

Lemma request_failed_counter n e w :
  mcp_request_id (manager (request_failed n e w)) = mcp_request_id (manager w).
Proof. unfold request_failed. destruct (is_class TimeoutError e), (is_Exception e); reflexivity. Qed.

Lemma request_failed_pending n e w m fut :
  pending_mcp_requests (manager (request_failed n e w)) !! m = Some fut ->
  pending_mcp_requests (manager w) !! m = Some fut.
Proof.
  unfold request_failed. destruct (is_class TimeoutError e), (is_Exception e); cbn; try done.
  intros H. apply lookup_delete_Some in H. tauto.
Qed.

Lemma request_failed_pending_ne n e w m :
  m <> n ->
  pending_mcp_requests (manager (request_failed n e w)) !! m
  = pending_mcp_requests (manager w) !! m.
Proof.
  intros Hne. unfold request_failed.
  destruct (is_class TimeoutError e), (is_Exception e); cbn; try done.
  by rewrite lookup_delete_ne.
Qed.

Lemma run_send_mcp_request method params w :
  exists k,
    run (send_mcp_request method params) w
    = (issued w, OnSend (request_frame method params (mcp_request_id (manager w) + 1)) k)
    /\ sends_as (mcp_request_id (manager w) + 1) (length (futures w)) k.
Proof.
  eexists. split; [reflexivity|].
  split.
  - intros w'. eexists. split; [reflexivity|].
    split; [reflexivity|].
    intros e w''. unfold request_failed. cbn.
    destruct e as [[] msg]; reflexivity.
  - intros e w'. unfold request_failed. cbn.
    destruct e as [[] msg]; reflexivity.
Qed.

(** ** Running composed coroutines *)

Lemma run_bind {A B : Type} (c : coro A) (f : A -> coro B) (w : world) :
  run (bind c f) w =
  match run c w with
  | (w', Returned a) => run (f a) w'
  | (w', Raised e) => (w', Raised e)
  | (w', OnReceive k) => (w', OnReceive (fun o => bind (k o) f))
  | (w', OnSend p k) => (w', OnSend p (fun o => bind (k o) f))
  | (w', OnFuture fut t k) => (w', OnFuture fut t (fun o => bind (k o) f))
  | (w', OnInvoke ex i k) => (w', OnInvoke ex i (fun o => bind (k o) f))
  end.
Proof.
  revert w. induction c as [a|e|k IH|w0 k IH|k IH|p k IH|fut t k IH|ex i k IH];
    intros w; cbn; try reflexivity.
  - apply IH.
  - apply IH.
Qed.

Lemma run_try_except {A : Type} (c : coro A) (h : exn -> option (coro A)) (w : world) :
  run (try_except c h) w =
  match run c w with
  | (w', Returned a) => (w', Returned a)
  | (w', Raised e) => match h e with Some c' => run c' w' | None => (w', Raised e) end
  | (w', OnReceive k) => (w', OnReceive (fun o => try_except (k o) h))
  | (w', OnSend p k) => (w', OnSend p (fun o => try_except (k o) h))
  | (w', OnFuture fut t k) => (w', OnFuture fut t (fun o => try_except (k o) h))
  | (w', OnInvoke ex i k) => (w', OnInvoke ex i (fun o => try_except (k o) h))
  end.
Proof.
  revert w. induction c as [a|e|k IH|w0 k IH|k IH|p k IH|fut t k IH|ex i k IH];
    intros w; cbn; try reflexivity.
  - destruct (h e); reflexivity.
  - apply IH.
  - apply IH.
Qed.

Lemma run_try_finally {A : Type} (c : coro A) (final : coro unit) (w : world) :
  run (try_finally c final) w =
  match run c w with
  | (w', Returned a) => run (bind final (fun _ => Ret a)) w'
  | (w', Raised e) => run (bind final (fun _ => Raise e)) w'
  | (w', OnReceive k) => (w', OnReceive (fun o => try_finally (k o) final))
  | (w', OnSend p k) => (w', OnSend p (fun o => try_finally (k o) final))
  | (w', OnFuture fut t k) => (w', OnFuture fut t (fun o => try_finally (k o) final))
  | (w', OnInvoke ex i k) => (w', OnInvoke ex i (fun o => try_finally (k o) final))
  end.
Proof.
  revert w. induction c as [a|e|k IH|w0 k IH|k IH|p k IH|fut t k IH|ex i k IH];
    intros w; cbn; try reflexivity.
  - apply IH.
  - apply IH.
Qed.

Lemma drive_bind {A B : Type} (o : outcomes) (c : coro A) (f : A -> coro B)
    (w : world) (sent : list pyval) :
  drive o (bind c f) w sent =
  match drive o c w sent with
  | (w', sent', inr a) => drive o (f a) w' sent'
  | (w', sent', inl e) => (w', sent', inl e)
  end.
Proof.
  revert w sent. induction c as [a|e|k IH|w0 k IH|k IH|p k IH|fut t k IH|ex i k IH];
    intros w sent; cbn; try reflexivity; apply IH.
Qed.

Lemma drive_try_except {A : Type} (o : outcomes) (c : coro A)
    (h : exn -> option (coro A)) (w : world) (sent : list pyval) :
  drive o (try_except c h) w sent =
  match drive o c w sent with
  | (w', sent', inl e) =>
      match h e with
      | Some c' => drive o c' w' sent'
      | None => (w', sent', inl e)
      end
  | r => r
  end.
Proof.
  revert w sent. induction c as [a|e|k IH|w0 k IH|k IH|p k IH|fut t k IH|ex i k IH];
    intros w sent; cbn; try reflexivity; try apply IH.
  destruct (h e); reflexivity.
Qed.

(** A coroutine that ends without awaiting does the same under [drive]. *)
Lemma drive_run {A : Type} (o : outcomes) (c : coro A) (w : world) (sent : list pyval) :
  match run c w with
  | (w', Returned a) => drive o c w sent = (w', sent, inr a)
  | (w', Raised e) => drive o c w sent = (w', sent, inl e)
  | _ => True
  end.
Proof.
  revert w. induction c as [a|e|k IH|w0 k IH|k IH|p k IH|fut t k IH|ex i k IH];
    intros w; cbn; try done; apply IH.
Qed.

(** ** [handle_mcp_response] and the turns of [listen] *)

Lemma run_handle_mcp_response mcp_data w :
  run (handle_mcp_response mcp_data) w = resolved mcp_data w.
Proof.
  unfold handle_mcp_response, resolved, pending_contains.
  destruct (py_get mcp_data "id" PyNone) as [e|request_id]; [reflexivity|].
  cbn. destruct (int_key request_id) as [e|[n|]] eqn:Hkey; cbn; try reflexivity.
  destruct (pending_mcp_requests (manager w) !! n) as [fut|] eqn:Hn; cbn.
  - unfold pending_pop. rewrite Hkey. cbn. rewrite Hn. cbn.
    destruct (future_is_done _); reflexivity.
  - reflexivity.
Qed.

Lemma resolved_cases mcp_data w :
  snd (resolved mcp_data w) = Returned tt \/
  exists e, resolved mcp_data w = (w, Raised e) /\
            is_Exception e = true /\ is_class JSONDecodeError e = false.
Proof.
  unfold resolved.
  destruct (py_get mcp_data "id" PyNone) as [e|request_id] eqn:Hid.
  { right. exists e. destruct mcp_data; cbn in Hid; try congruence;
      injection Hid as <-; done. }
  destruct (int_key request_id) as [e|[n|]] eqn:Hkey.
  { right. exists e. destruct request_id; cbn in Hkey; try congruence;
      injection Hkey as <-; done. }
  - left. destruct (pending_mcp_requests (manager w) !! n); [|reflexivity].
    cbn. destruct (future_is_done _); reflexivity.
  - left. reflexivity.
Qed.

Lemma listen_turn_raise e w : listen_turn (inl e) w = (w, Raised e).
Proof. reflexivity. Qed.

Lemma listen_turn_frame data w :
  listen_turn (inr data) w = (dispatched data w, Returned tt).
Proof.
  unfold listen_turn, dispatched. cbn.
  destruct data as [v|]; [|reflexivity]. cbn.
  rewrite run_try_except. unfold reply_shaped, accepted.
  destruct (py_contains "jsonrpc" v) as [e|[]] eqn:Hj; cbn.
  - destruct v; cbn in Hj; try congruence; injection Hj as <-; reflexivity.
  - destruct (py_contains "method" v) as [e'|[]] eqn:Hm; cbn.
    + destruct v; cbn in Hj, Hm; congruence.
    + destruct v; cbn in *; try congruence; try reflexivity.
      destruct (py_truthy _); reflexivity.
    + rewrite run_handle_mcp_response.
      destruct (resolved_cases v w) as [Hr|(e & Hr & He & Hc)].
      * destruct (resolved v w) as [w' r]. cbn in Hr. by subst r.
      * rewrite Hr. unfold is_class in Hc. cbn in Hc |- *. rewrite Hc, He. reflexivity.
  - destruct v; cbn in *; try congruence; try reflexivity.
    destruct (py_truthy _); reflexivity.
Qed.

Lemma dispatched_effect data w : turn_effect w (dispatched data w).
Proof.
  unfold dispatched. destruct data as [v|]; [|constructor].
  destruct (reply_shaped v).
  - unfold resolved.
    destruct (py_get v "id" PyNone) as [e|request_id] eqn:Hid; [constructor|].
    destruct (int_key request_id) as [e|[n|]] eqn:Hkey; try constructor.
    destruct (pending_mcp_requests (manager w) !! n) as [fut|] eqn:Hn; [|constructor].
    cbn. destruct (future_is_done _) eqn:Hdone.
    + by eapply turn_late.
    + eapply turn_delivered; try done.
      unfold replies_to. rewrite Hid, Hkey. apply Z.eqb_refl.
  - unfold accepted.
    destruct (py_contains "jsonrpc" v); [constructor|].
    destruct (py_get v "message" (PyStr "")); [constructor|].
    destruct (py_get v "messageId" PyNone); [constructor|].
    destruct (py_truthy _); constructor.
Qed.

(** ** Teardown *)

Lemma run_cleanup w : run cleanup w = (cleaned w, Returned tt).
Proof.
  unfold cleanup, cleaned. cbn.
  destruct (listener_task (manager w)) as [t|]; [|reflexivity]. cbn.
  destruct (tasks w !! t) as [x|] eqn:Ht; [|reflexivity]. cbn.
  destruct (task_done x) eqn:Hx; cbn; [reflexivity|].
  unfold log1, with_logged, with_tasks. cbn. rewrite Ht, Hx. reflexivity.
Qed.

Lemma run_listen_exit e w :
  run (listen_exit e) w =
  (torn_down e w,
   if is_class WebSocketDisconnect e || is_Exception e then Returned tt else Raised e).
Proof.
  unfold listen_exit, torn_down. rewrite run_try_finally, run_try_except.
  cbn [run].
  destruct (is_class WebSocketDisconnect e); [|destruct (is_Exception e)];
    cbn [orb run log modify]; rewrite run_bind, run_cleanup; reflexivity.
Qed.

Lemma cleaned_manager w : manager (cleaned w) = manager w.
Proof.
  unfold cleaned. destruct (listener_task (manager w)) as [t|]; [|reflexivity].
  destruct (tasks w !! t) as [x|]; [|reflexivity].
  destruct (task_done x); reflexivity.
Qed.

Lemma cleaned_futures w : futures (cleaned w) = futures w.
Proof.
  unfold cleaned. destruct (listener_task (manager w)) as [t|]; [|reflexivity].
  destruct (tasks w !! t) as [x|]; [|reflexivity].
  destruct (task_done x); reflexivity.
Qed.

Lemma torn_down_manager e w : manager (torn_down e w) = manager w.
Proof.
  unfold torn_down. rewrite cleaned_manager.
  destruct (is_class WebSocketDisconnect e), (is_Exception e); reflexivity.
Qed.

Lemma torn_down_futures e w : futures (torn_down e w) = futures w.
Proof.
  unfold torn_down. rewrite cleaned_futures.
  destruct (is_class WebSocketDisconnect e), (is_Exception e); reflexivity.
Qed.

Lemma finish_task_manager t w : manager (finish_task t w) = manager w.
Proof. destruct t; reflexivity. Qed.

Lemma finish_task_futures t w : futures (finish_task t w) = futures w.
Proof. destruct t; reflexivity. Qed.

(** ** The invariant *)

Lemma session_init_ok : session_ok session_init.
Proof.
  split; cbn; try done.
Qed.

Lemma request_frame_id method params n :
  py_get (request_frame method params n) "id" PyNone = inr (PyInt n).
Proof. unfold request_frame. destruct (py_truthy params); reflexivity. Qed.

Lemma step_call_ok s method params s' :
  session_ok s -> step s (Call method params) = Some s' -> session_ok s'.
Proof.
  intros [Hc Hf Hp Hr Hcalls Hw] Hstep. unfold step in Hstep.
  destruct (run_send_mcp_request method params (state s)) as (k & Hrun & Hk).
  rewrite Hrun in Hstep. injection Hstep as <-. rewrite Hc, Hf in Hk.
  split; cbn.
  - rewrite length_app. cbn. lia.
  - rewrite !length_app. cbn. lia.
  - intros n fut. rewrite Hf, Hc, length_app. cbn.
    intros [[<- <-]|[_ H]]%lookup_insert_Some; [lia|].
    apply Hp in H. lia.
  - intros fut v [H|[_ H]]%lookup_app_Some; [by apply Hr|].
    by destruct (fut - _)%nat as [|[]].
  - intros i c [H|[Hi H]]%lookup_app_Some; [by apply Hcalls|].
    destruct (i - _)%nat as [|[]] eqn:Hd; try done.
    injection H as <-. assert (i = length (calls s)) as -> by lia.
    split; [|done].
    unfold request_id_of. cbn [request sent_frame]. by rewrite Hc, request_frame_id.
  - intros i c [H|[Hi H]]%lookup_app_Some Hfl Hfut.
    + apply lookup_lt_Some in H as Hlt.
      rewrite lookup_app_l in Hfut by lia.
      rewrite Hc, lookup_insert_ne by lia. eauto.
    + destruct (i - _)%nat as [|[]] eqn:Hd; try done.
      assert (i = length (calls s)) as -> by lia.
      rewrite Hc, Hf. apply lookup_insert_eq.
Qed.

Lemma request_id_of_request r p c :
  r = request c -> request_id_of {| request := r; progress := p |} = request_id_of c.
Proof. by intros ->. Qed.

(** A call that ends in its [except] clauses. *)
Lemma failed_ok s i c e w :
  session_ok s -> calls s !! i = Some c ->
  manager w = manager (state s) ->
  length (futures w) = length (futures (state s)) ->
  (forall j, j <> i -> futures w !! j = futures (state s) !! j) ->
  (forall v, futures w !! i = Some (FutResult v) ->
             futures (state s) !! i = Some (FutResult v)) ->
  session_ok {| state := request_failed (Z.of_nat i + 1) e w;
                calls := <[i := {| request := request c; progress := Raised e |}]> (calls s);
                listening := listening s |}.
Proof.
  intros [Hc Hf Hp Hr Hcalls Hw] Hi Hm Hlen Hne Hres.
  split; cbn [state calls].
  - by rewrite request_failed_counter, Hm, length_insert.
  - by rewrite request_failed_futures, length_insert, Hlen.
  - intros n fut H%request_failed_pending. rewrite Hm in H.
    rewrite length_insert. by apply Hp.
  - intros fut v. rewrite request_failed_futures.
    destruct (decide (fut = i)) as [->|Hfi];
      [intros H%Hres; by apply Hr|rewrite Hne by done; apply Hr].
  - intros j cj [(-> & <- & Hlt)|(Hji & H)]%list_lookup_insert_Some; [|by apply Hcalls].
    split; [|done]. apply (Hcalls _ _ Hi).
  - intros j cj [(-> & <- & Hlt)|(Hji & H)]%list_lookup_insert_Some Hfl Hfut; [done|].
    rewrite request_failed_futures, Hne in Hfut by done.
    rewrite request_failed_pending_ne, Hm by lia. eauto.
Qed.

Lemma step_send_ok s i o s' :
  session_ok s -> step s (SendReturns i o) = Some s' -> session_ok s'.
Proof.
  intros Hok Hstep. unfold step in Hstep.
  destruct (calls s !! i) as [[r p]|] eqn:Hi; [|done].
  destruct p as [| | |payload k| |]; try done.
  injection Hstep as <-.
  destruct (ok_calls s Hok i _ Hi) as [Hid [Hsent Hfail]]. cbn in Hsent, Hfail.
  unfold resume. destruct o as [e|[]].
  - rewrite Hfail. by apply (failed_ok s i _ e (state s) Hok Hi).
  - destruct (Hsent (state s)) as (k' & -> & Hk').
    destruct Hok as [Hc Hf Hp Hr Hcalls Hw].
    split; cbn [state calls]; rewrite ?length_insert; try done.
    + intros j cj [(-> & <- & Hlt)|(Hji & H)]%list_lookup_insert_Some; [|by apply Hcalls].
      split; [done|]. cbn. done.
    + intros j cj [(-> & <- & Hlt)|(Hji & H)]%list_lookup_insert_Some Hfl Hfut;
        [|by eapply Hw].
      by eapply Hw.
Qed.

Lemma step_result_ok s i s' :
  session_ok s -> step s (ResultReady i) = Some s' -> session_ok s'.
Proof.
  intros Hok Hstep. unfold step in Hstep.
  destruct (calls s !! i) as [[r p]|] eqn:Hi; [|done].
  destruct p as [| | | |fut t k|]; try done.
  destruct (futures (state s) !! fut) as [[|v|]|] eqn:Hfut; try done.
  injection Hstep as <-.
  destruct (ok_calls s Hok i _ Hi) as [Hid (-> & -> & Hret & Hfail)].
  unfold resume. rewrite Hret.
  destruct Hok as [Hc Hf Hp Hr Hcalls Hw].
  split; cbn [state calls]; rewrite ?length_insert; try done.
  - intros j cj [(-> & <- & Hlt)|(Hji & H)]%list_lookup_insert_Some; [|by apply Hcalls].
    split; [done|]. cbn. by apply Hr.
  - intros j cj [(-> & <- & Hlt)|(Hji & H)]%list_lookup_insert_Some Hfl Hfut';
      [done|by eapply Hw].
Qed.

Lemma cancelled_ok s i r fut t k e s' :
  session_ok s ->
  calls s !! i = Some {| request := r; progress := OnFuture fut t k |} ->
  match futures (state s) !! fut with
  | Some FutPending =>
      Some (resume s i r (k (inl e))
              (with_futures (fun l => <[fut := FutCancelled]> l) (state s)))
  | _ => None
  end = Some s' ->
  session_ok s'.
Proof.
  intros Hok Hi Hstep.
  destruct (futures (state s) !! fut) as [[|v|]|] eqn:Hfut; try done.
  injection Hstep as <-.
  destruct (ok_calls s Hok i _ Hi) as [Hid (-> & -> & Hret & Hfail)].
  unfold resume. rewrite Hfail.
  apply (failed_ok s i _ e _ Hok Hi); cbn; try done.
  - by rewrite length_insert.
  - intros j Hj. by rewrite list_lookup_insert_ne.
  - intros v H. apply list_lookup_insert_Some in H as [(_ & [=] & _)|(? & _)]; done.
Qed.

Lemma turn_effect_ok s w' :
  session_ok s -> turn_effect (state s) w' ->
  session_ok {| state := w'; calls := calls s; listening := true |}.
Proof.
  intros [Hc Hf Hp Hr Hcalls Hw] Heff.
  destruct Heff as [|r|t|n fut Hn Hdone|n fut v Hn Hv Hdone]; try (by split).
  - split; cbn; try done.
    + intros m f [_ H]%lookup_delete_Some. by apply Hp.
    + intros i c Hi Hfl Hfut.
      destruct (decide (n = Z.of_nat i + 1)) as [->|Hne].
      * rewrite (Hw i c Hi Hfl Hfut) in Hn. injection Hn as <-.
        by rewrite Hfut in Hdone.
      * rewrite lookup_delete_ne by done. eauto.
  - destruct (Hp n fut Hn) as [-> Hlt].
    split; cbn; try done.
    + by rewrite length_insert.
    + intros m f [_ H]%lookup_delete_Some. by apply Hp.
    + intros f x [(-> & [= <-] & _)|(Hne & H)]%list_lookup_insert_Some; [done|by apply Hr].
    + intros i c Hi Hfl [(-> & [=] & _)|(Hne & Hfut)]%list_lookup_insert_Some.
      rewrite lookup_delete_ne by lia. eauto.
Qed.

Lemma step_receive_ok s o s' :
  session_ok s -> step s (Receive o) = Some s' -> session_ok s'.
Proof.
  intros Hok Hstep. unfold step in Hstep.
  destruct (listening s); [|done].
  destruct o as [e|data].
  - rewrite listen_turn_raise in Hstep. injection Hstep as <-.
    rewrite run_listen_exit. cbn [fst].
    destruct Hok as [Hc Hf Hp Hr Hcalls Hw].
    split; cbn [state calls];
      rewrite ?finish_task_manager, ?finish_task_futures,
        ?torn_down_manager, ?torn_down_futures; done.
  - rewrite listen_turn_frame in Hstep. injection Hstep as <-.
    apply turn_effect_ok; [done|apply dispatched_effect].
Qed.

Lemma step_ok s ev s' : session_ok s -> step s ev = Some s' -> session_ok s'.
Proof.
  intros Hok Hstep. destruct ev as [method params|i o|i|i|i|o].
  - by eapply step_call_ok.
  - by eapply step_send_ok.
  - by eapply step_result_ok.
  - unfold step in Hstep.
    destruct (calls s !! i) as [[r p]|] eqn:Hi; [|done].
    destruct p as [| | | |fut t k|]; try done. by eapply cancelled_ok.
  - unfold step in Hstep.
    destruct (calls s !! i) as [[r p]|] eqn:Hi; [|done].
    destruct p as [| | | |fut t k|]; try done. by eapply cancelled_ok.
  - by eapply step_receive_ok.
Qed.

Lemma steps_ok evs : forall s s', session_ok s -> steps s evs = Some s' -> session_ok s'.
Proof.
  induction evs as [|ev evs IH]; intros s s' Hok; cbn [steps].
  - by intros [= <-].
  - destruct (step s ev) as [s1|] eqn:Hstep; [|done].
    apply IH. by eapply step_ok.
Qed.

Lemma reachable_ok evs s : steps session_init evs = Some s -> session_ok s.
Proof. apply steps_ok, session_init_ok. Qed.

(** ** Correlation of replies with requests *)

Lemma dispatched_delivers mcp_data n fut w :
  reply_shaped mcp_data = true -> replies_to n mcp_data = true ->
  pending_mcp_requests (manager w) !! n = Some fut ->
  futures w !! fut = Some FutPending ->
  dispatched (JsonText mcp_data) w
  = with_futures (fun l => <[fut := FutResult mcp_data]> l) (popped n w).
Proof.
  intros Hshape Hreply Hn Hfut.
  unfold dispatched. rewrite Hshape. unfold resolved.
  unfold replies_to in Hreply.
  destruct (py_get mcp_data "id" PyNone) as [?|request_id]; [done|].
  destruct (int_key request_id) as [?|[m|]]; try done.
  apply Z.eqb_eq in Hreply as ->. by rewrite Hn, Hfut.
Qed.

Lemma delivery s i c fut t k mcp_data n :
  session_ok s ->
  calls s !! i = Some c -> progress c = OnFuture fut t k ->
  futures (state s) !! fut = Some FutPending ->
  listening s = true ->
  request_id_of c = Some n ->
  reply_shaped mcp_data = true -> replies_to n mcp_data = true ->
  exists s1 s2 c',
    step s (Receive (inr (JsonText mcp_data))) = Some s1 /\
    step s1 (ResultReady i) = Some s2 /\
    calls s2 !! i = Some c' /\ progress c' = Returned mcp_data.
Proof.
  intros Hok Hi Hp Hfut Hl Hn Hshape Hreply.
  destruct c as [r p]. cbn in Hp. subst p.
  destruct (ok_calls s Hok i _ Hi) as [Hid (-> & -> & Hret & Hfail)].
  rewrite Hid in Hn. injection Hn as <-.
  pose proof (ok_waiting s Hok i _ Hi eq_refl Hfut) as Hpend.
  unfold step at 1. rewrite Hl, listen_turn_frame.
  rewrite (dispatched_delivers _ _ _ _ Hshape Hreply Hpend Hfut).
  eexists _, _, _. split; [reflexivity|].
  assert (Hlt : (i < length (futures (state s)))%nat) by (by eapply lookup_lt_Some).
  assert (Hlt' : (i < length (calls s))%nat) by (by eapply lookup_lt_Some).
  unfold step. cbn [calls state futures with_futures popped with_manager]. rewrite Hi.
  rewrite (list_lookup_insert_eq _ _ _ Hlt).
  unfold resume. rewrite Hret. cbv beta iota.
  split; [reflexivity|]. cbn [calls].
  rewrite (list_lookup_insert_eq _ _ _ Hlt'). done.
Qed.

(** C1: on one connection, whatever the interleaving of calls, sends,
    replies, timeouts and cancellations: the i-th call of
    [send_mcp_request] sent the request with id i+1, so ids are distinct
    and strictly increasing in the order of the calls; the manager's
    counter is the number of calls made, and every entry of the pending
    table is under an id already issued and belongs to the call that sent
    that id, so the next id is never in the table; a response returned to a
    call is a frame whose "id" is the id of that call's own request; and a
    reply with the id of a call that is still waiting reaches that call,
    whatever else is pending. *)
Theorem C1_replies_reach_their_callers (evs : list event) (s : session) :
  steps session_init evs = Some s ->
  (forall i c, calls s !! i = Some c -> request_id_of c = Some (Z.of_nat i + 1)) /\
  (forall i j ci cj ni nj,
      (i < j)%nat -> calls s !! i = Some ci -> calls s !! j = Some cj ->
      request_id_of ci = Some ni -> request_id_of cj = Some nj -> ni < nj) /\
  mcp_request_id (manager (state s)) = Z.of_nat (length (calls s)) /\
  (forall n fut,
      pending_mcp_requests (manager (state s)) !! n = Some fut ->
      1 <= n <= mcp_request_id (manager (state s)) /\
      exists c, calls s !! fut = Some c /\ request_id_of c = Some n) /\
  (forall i c v,
      calls s !! i = Some c -> progress c = Returned v ->
      exists n, request_id_of c = Some n /\ replies_to n v = true) /\
  (forall i c fut t k mcp_data n,
      calls s !! i = Some c -> progress c = OnFuture fut t k ->
      futures (state s) !! fut = Some FutPending ->
      listening s = true ->
      request_id_of c = Some n ->
      reply_shaped mcp_data = true -> replies_to n mcp_data = true ->
      exists s1 s2 c',
        step s (Receive (inr (JsonText mcp_data))) = Some s1 /\
        step s1 (ResultReady i) = Some s2 /\
        calls s2 !! i = Some c' /\ progress c' = Returned mcp_data).
Proof.
  intros Hok%reachable_ok.
  assert (Hids : forall i c, calls s !! i = Some c -> request_id_of c = Some (Z.of_nat i + 1)).
  { intros i c Hi. apply (ok_calls s Hok i c Hi). }
  repeat split.
  - exact Hids.
  - intros i j ci cj ni nj Hij Hi%Hids Hj%Hids Hni Hnj.
    rewrite Hi in Hni. rewrite Hj in Hnj. injection Hni as <-. injection Hnj as <-. lia.
  - apply (ok_counter s Hok).
  - destruct (ok_pending s Hok n fut H) as [-> Hlt]. lia.
  - destruct (ok_pending s Hok n fut H) as [-> Hlt].
    rewrite (ok_counter s Hok). lia.
  - destruct (ok_pending s Hok n fut H) as [-> Hlt].
    destruct (lookup_lt_is_Some_2 (calls s) fut Hlt) as [c Hc].
    exists c. split; [done|]. by apply Hids.
  - intros i c v Hi Hp. exists (Z.of_nat i + 1). split; [by apply Hids|].
    destruct (ok_calls s Hok i c Hi) as [_ Hprog]. by rewrite Hp in Hprog.
  - intros. by eapply delivery.
Qed.

Lemma two_calls_run : steps session_init two_calls = Some two_calls_end.
Proof. vm_compute. reflexivity. Qed.

(** Two calls in flight, their replies arriving in the opposite order:
    each call returns the reply to its own request. *)
Lemma C1_witness :
  steps session_init two_calls = Some two_calls_end /\
  (forall i c v,
      calls two_calls_end !! i = Some c -> progress c = Returned v ->
      exists n, request_id_of c = Some n /\ replies_to n v = true).
Proof.
  split; [exact two_calls_run|].
  destruct (C1_replies_reach_their_callers two_calls two_calls_end two_calls_run)
    as (_ & _ & _ & _ & H & _).
  exact H.
Defined.

(** ** Teardown leaves the pending requests alone *)

Lemma step_torn_down s e s' :
  step s (Receive (inl e)) = Some s' ->
  listening s' = false /\ calls s' = calls s /\
  manager (state s') = manager (state s) /\
  futures (state s') = futures (state s).
Proof.
  unfold step. destruct (listening s); [|done].
  rewrite listen_turn_raise. intros [= <-]. cbn [listening calls state].
  rewrite run_listen_exit. cbn [fst].
  by rewrite finish_task_manager, finish_task_futures, torn_down_manager,
    torn_down_futures.
Qed.

(** Once the loop has ended no step completes a future with a result. *)
Lemma step_unanswered s ev s' fut :
  session_ok s -> listening s = false -> step s ev = Some s' ->
  unanswered (futures (state s) !! fut) ->
  listening s' = false /\ unanswered (futures (state s') !! fut).
Proof.
  intros Hok Hl Hstep Hfut. destruct ev as [method params|i o|i|i|i|o].
  - unfold step in Hstep.
    destruct (run_send_mcp_request method params (state s)) as (k & Hrun & Hk).
    rewrite Hrun in Hstep. injection Hstep as <-. split; [done|]. cbn.
    rewrite lookup_app_l; [done|].
    destruct Hfut as [Hfut|Hfut]; by eapply lookup_lt_Some.
  - unfold step in Hstep.
    destruct (calls s !! i) as [[r p]|] eqn:Hi; [|done].
    destruct p as [| | |payload k| |]; try done.
    injection Hstep as <-.
    destruct (ok_calls s Hok i _ Hi) as [Hid [Hsent Hfail]]. cbn in Hsent, Hfail.
    unfold resume. destruct o as [e|[]].
    + rewrite Hfail. cbn [state listening]. by rewrite request_failed_futures.
    + by destruct (Hsent (state s)) as (k' & -> & Hk').
  - unfold step in Hstep.
    destruct (calls s !! i) as [[r p]|] eqn:Hi; [|done].
    destruct p as [| | | |f t k|]; try done.
    destruct (futures (state s) !! f) as [[|v|]|] eqn:Hf; try done.
    injection Hstep as <-.
    destruct (ok_calls s Hok i _ Hi) as [Hid (-> & -> & Hret & Hfail)].
    unfold resume. by rewrite Hret.
  - unfold step in Hstep.
    destruct (calls s !! i) as [[r p]|] eqn:Hi; [|done].
    destruct p as [| | | |f t k|]; try done.
    destruct (futures (state s) !! f) as [[|v|]|] eqn:Hf; try done.
    injection Hstep as <-.
    destruct (ok_calls s Hok i _ Hi) as [Hid (-> & -> & Hret & Hfail)].
    unfold resume. rewrite Hfail. cbn [state listening].
    rewrite request_failed_futures. cbn [futures with_futures].
    split; [done|].
    destruct (decide (fut = i)) as [->|Hne].
    + rewrite list_lookup_insert_eq; [by right|by eapply lookup_lt_Some].
    + by rewrite list_lookup_insert_ne.
  - unfold step in Hstep.
    destruct (calls s !! i) as [[r p]|] eqn:Hi; [|done].
    destruct p as [| | | |f t k|]; try done.
    destruct (futures (state s) !! f) as [[|v|]|] eqn:Hf; try done.
    injection Hstep as <-.
    destruct (ok_calls s Hok i _ Hi) as [Hid (-> & -> & Hret & Hfail)].
    unfold resume. rewrite Hfail. cbn [state listening].
    rewrite request_failed_futures. cbn [futures with_futures].
    split; [done|].
    destruct (decide (fut = i)) as [->|Hne].
    + rewrite list_lookup_insert_eq; [by right|by eapply lookup_lt_Some].
    + by rewrite list_lookup_insert_ne.
  - unfold step in Hstep. by rewrite Hl in Hstep.
Qed.

Lemma steps_unanswered evs : forall s s' fut,
  session_ok s -> listening s = false -> steps s evs = Some s' ->
  unanswered (futures (state s) !! fut) ->
  listening s' = false /\ unanswered (futures (state s') !! fut).
Proof.
  induction evs as [|ev evs IH]; intros s s' fut Hok Hl; cbn [steps].
  - by intros [= <-].
  - destruct (step s ev) as [s1|] eqn:Hstep; [|done].
    intros Hsteps Hfut.
    destruct (step_unanswered s ev s1 fut Hok Hl Hstep Hfut) as [Hl1 Hfut1].
    apply (IH s1 s' fut); [by eapply step_ok|done..].
Qed.

(** C3, as the code has it: when [listen] leaves its loop (disconnect,
    cancellation or any other exception of [receive_text]) its [finally]
    runs [cleanup], which only cancels the listener task and logs. The
    pending table and the futures are left as they were and every call
    stays where it was; from then on no step of the connection completes a
    pending future with a result or an error: it stays pending until the
    timeout of its own call (or the cancellation of its caller) cancels
    it. *)
Theorem C3_teardown_leaves_requests_pending
    (evs : list event) (s s' : session) (e : exn) :
  steps session_init evs = Some s ->
  step s (Receive (inl e)) = Some s' ->
  listening s' = false /\
  calls s' = calls s /\
  pending_mcp_requests (manager (state s'))
  = pending_mcp_requests (manager (state s)) /\
  futures (state s') = futures (state s) /\
  (forall evs' s'' fut,
      steps s' evs' = Some s'' ->
      futures (state s) !! fut = Some FutPending ->
      listening s'' = false /\ unanswered (futures (state s'') !! fut)).
Proof.
  intros Hok%reachable_ok Hstep.
  assert (Hok' : session_ok s') by (by eapply step_ok).
  destruct (step_torn_down s e s' Hstep) as (Hl & Hcalls & Hm & Hf).
  split; [done|]. split; [done|]. split; [by rewrite Hm|]. split; [done|].
  intros evs' s'' fut Hsteps Hfut.
  apply (steps_unanswered evs' s' s'' fut Hok' Hl Hsteps). rewrite Hf. by left.
Qed.

Lemma one_call_waiting_run :
  steps session_init one_call_waiting = Some one_call_waiting_end.
Proof. vm_compute. reflexivity. Qed.

Lemma abandoned_step :
  step one_call_waiting_end (Receive (inl disconnect)) = Some abandoned_end.
Proof. vm_compute. reflexivity. Qed.

(** One call is waiting for its reply when the peer disconnects. *)
Lemma C3_witness :
  steps session_init one_call_waiting = Some one_call_waiting_end /\
  step one_call_waiting_end (Receive (inl disconnect)) = Some abandoned_end /\
  calls abandoned_end = calls one_call_waiting_end /\
  futures (state abandoned_end) = futures (state one_call_waiting_end).
Proof.
  destruct (C3_teardown_leaves_requests_pending one_call_waiting
              one_call_waiting_end abandoned_end disconnect
              one_call_waiting_run abandoned_step) as (_ & Hcalls & _ & Hf & _).
  split; [exact one_call_waiting_run|].
  split; [exact abandoned_step|].
  split; [exact Hcalls|exact Hf].
Defined.

(** C3 fails as stated: after the teardown the call is still suspended in
    [wait_for], its future is still pending (no error was set on it) and
    its entry is still in the table. *)
Lemma C3_counterexample :
  steps session_init abandoned = Some abandoned_end /\
  listening abandoned_end = false /\
  (exists c, calls abandoned_end !! 0%nat = Some c /\ in_flight c = true) /\
  futures (state abandoned_end) !! 0%nat = Some FutPending /\
  pending_mcp_requests (manager (state abandoned_end)) !! 1 = Some 0%nat.
Proof.
  split; [vm_compute; reflexivity|].
  split; [reflexivity|].
  split; [eexists; split; reflexivity|].
  split; [reflexivity|]. vm_compute. reflexivity.
Qed.

(** On every connection a timeout leaves the pending table as it was. *)
Lemma timeout_keeps_the_table evs s i s' :
  steps session_init evs = Some s ->
  step s (TimerFires i) = Some s' ->
  pending_mcp_requests (manager (state s')) = pending_mcp_requests (manager (state s)).
Proof.
  intros Hok%reachable_ok Hstep. unfold step in Hstep.
  destruct (calls s !! i) as [[r p]|] eqn:Hi; [|done].
  destruct p as [| | | |fut t k|]; try done.
  destruct (futures (state s) !! fut) as [[|v|]|]; try done.
  injection Hstep as <-.
  destruct (ok_calls s Hok i _ Hi) as [Hid (-> & -> & Hret & Hfail)].
  unfold resume. by rewrite Hfail.
Qed.

(** C4 at the failing input: one request, no reply within the timeout.
    [wait_for] raises [TimeoutError] and the first [except] clause logs and
    re-raises without taking the entry out: request 1 is still in the
    table, with a cancelled future. The late reply then finds the entry,
    takes it out and, the future being done, is dropped without a log
    record. *)
Lemma C4_timeout_keeps_the_entry :
  steps session_init timed_out = Some timed_out_end /\
  (exists c, calls timed_out_end !! 0%nat = Some c /\
             progress c = Raised (Exn TimeoutError "")) /\
  pending_mcp_requests (manager (state timed_out_end)) !! 1 = Some 0%nat /\
  futures (state timed_out_end) = [FutCancelled] /\
  logged (state timed_out_end) = [LogRequestTimeout 1] /\
  steps session_init late_reply = Some late_reply_end /\
  pending_mcp_requests (manager (state late_reply_end)) !! 1 = None /\
  futures (state late_reply_end) = [FutCancelled] /\
  logged (state late_reply_end) = [LogRequestTimeout 1] /\
  calls late_reply_end = calls timed_out_end.
Proof.
  split; [vm_compute; reflexivity|].
  split; [eexists; split; reflexivity|].
  repeat split; vm_compute; reflexivity.
Qed.

(** ** Replies without a pending request *)

Lemma dispatched_unmatched mcp_data w :
  reply_shaped mcp_data = true ->
  (forall request_id,
      py_get mcp_data "id" PyNone = inr request_id ->
      pending_contains (pending_mcp_requests (manager w)) request_id <> inr true) ->
  exists r, dispatched (JsonText mcp_data) w = log1 r w /\ drop_record r.
Proof.
  intros Hshape Hnone. unfold dispatched. rewrite Hshape. unfold resolved.
  destruct (py_get mcp_data "id" PyNone) as [e|request_id] eqn:Hid.
  { eexists. split; [reflexivity|]. right. by eexists. }
  specialize (Hnone request_id eq_refl). unfold pending_contains in Hnone.
  destruct (int_key request_id) as [e|[n|]].
  - eexists. split; [reflexivity|]. right. by eexists.
  - destruct (pending_mcp_requests (manager w) !! n) as [fut|] eqn:Hn.
    + rewrite bool_decide_eq_true_2 in Hnone by eauto. done.
    + eexists. split; [reflexivity|]. left. by eexists.
  - eexists. split; [reflexivity|]. left. by eexists.
Qed.

Lemma dispatched_takes_out mcp_data w request_id :
  reply_shaped mcp_data = true ->
  py_get mcp_data "id" PyNone = inr request_id ->
  pending_contains
    (pending_mcp_requests (manager (dispatched (JsonText mcp_data) w))) request_id
  <> inr true.
Proof.
  intros Hshape Hid. unfold dispatched. rewrite Hshape. unfold resolved, pending_contains.
  rewrite Hid. destruct (int_key request_id) as [e|[n|]] eqn:Hkey; cbn; try done.
  destruct (pending_mcp_requests (manager w) !! n) as [fut|] eqn:Hn; cbn.
  - assert (forall p : gmap Z nat,
               inr (bool_decide (is_Some (delete n p !! n))) <> @inr exn bool true) as Hdel.
    { intros p. rewrite lookup_delete_eq, bool_decide_eq_false_2; [done|].
      by intros [? ?]. }
    destruct (future_is_done _); apply Hdel.
  - rewrite Hn, bool_decide_eq_false_2; [done|]. by intros [? ?].
Qed.

(** C5: a turn of [listen] that receives a reply-shaped frame whose id has
    no entry in the pending table (a missing or unknown id, an id that
    cannot be a key, or a frame that is no JSON object) changes nothing but
    the log, to which it adds one record, and ends normally: the table and
    every future are as before, nothing reaches a caller, and the loop
    takes its next turn. In particular a frame delivered a second time is
    dropped this way, whatever the first delivery did. *)
Theorem C5_unmatched_reply_is_dropped (mcp_data : pyval) (w : world) :
  reply_shaped mcp_data = true ->
  ((forall request_id,
       py_get mcp_data "id" PyNone = inr request_id ->
       pending_contains (pending_mcp_requests (manager w)) request_id <> inr true) ->
   (exists r,
       listen_turn (inr (JsonText mcp_data)) w = (log1 r w, Returned tt) /\
       drop_record r) /\
   (forall s,
       state s = w -> listening s = true ->
       exists r,
         step s (Receive (inr (JsonText mcp_data)))
         = Some {| state := log1 r w; calls := calls s; listening := true |})) /\
  (let w1 := fst (listen_turn (inr (JsonText mcp_data)) w) in
   exists r,
     listen_turn (inr (JsonText mcp_data)) w1 = (log1 r w1, Returned tt) /\
     drop_record r).
Proof.
  intros Hshape. split.
  - intros Hnone.
    destruct (dispatched_unmatched mcp_data w Hshape Hnone) as (r & Hr & Hdrop).
    split.
    + exists r. by rewrite listen_turn_frame, Hr.
    + intros s <- Hl. exists r. unfold step. by rewrite Hl, listen_turn_frame, Hr.
  - cbn zeta. rewrite !listen_turn_frame. cbn [fst].
    destruct (dispatched_unmatched mcp_data (dispatched (JsonText mcp_data) w) Hshape)
      as (r & Hr & Hdrop).
    { intros request_id Hid. by apply dispatched_takes_out. }
    exists r. by rewrite Hr.
Qed.

(** A reply for request 7 on a connection that has issued no request. *)
Lemma C5_witness :
  reply_shaped (reply_frame 7 PyNone) = true /\
  exists r,
    listen_turn (inr (JsonText (reply_frame 7 PyNone))) world_init
    = (log1 r world_init, Returned tt) /\
    drop_record r.
Proof.
  split; [reflexivity|].
  apply (C5_unmatched_reply_is_dropped (reply_frame 7 PyNone) world_init eq_refl).
  intros request_id [= <-]. vm_compute. discriminate.
Defined.

(** ** Classification of inbound frames *)

Lemma reply_shaped_dict d :
  reply_shaped (PyDict d)
  = bool_decide (is_Some (dict_lookup d "jsonrpc"))
    && negb (bool_decide (is_Some (dict_lookup d "method"))).
Proof.
  unfold reply_shaped. cbn.
  by destruct (bool_decide (is_Some (dict_lookup d "jsonrpc"))),
    (bool_decide (is_Some (dict_lookup d "method"))).
Qed.

Lemma accepted_dict d w :
  accepted (PyDict d) w =
  let message := default (PyStr "") (dict_lookup d "message") in
  let message_id := default PyNone (dict_lookup d "messageId") in
  if py_truthy message then
    with_tasks (fun l =>
      l ++ [Task (ProcessAgentMessageTask message message_id) false false]) w
  else w.
Proof.
  unfold accepted. cbn.
  destruct (dict_lookup d "message"), (dict_lookup d "messageId"); reflexivity.
Qed.

Lemma accepted_other message_data w :
  (forall d, message_data <> PyDict d) ->
  exists e, accepted message_data w = log1 (LogErrorProcessingMessage e) w.
Proof.
  intros Hnd. unfold accepted.
  destruct message_data; cbn; try (by eexists). by destruct (Hnd items).
Qed.

(** C2, as the code has it. A turn of [listen] on a received text always
    ends normally, so the loop goes on, and:
    - a text that is not JSON is logged and skipped;
    - a decoded frame that is reply shaped (["jsonrpc" in] it and
      ["method" not in] it) is passed to [handle_mcp_response] within the
      turn, and what that raises is logged;
    - a JSON object that is not reply shaped is handed to a new task
      running [process_agent_message] only if its "message" is truthy;
      otherwise nothing at all is done with it;
    - any other decoded frame that is not reply shaped is logged as an
      error and skipped. *)
Theorem C2_listen_dispatches_each_frame (w : world) :
  listen_turn (inr NotJson) w = (log1 LogInvalidJson w, Returned tt) /\
  (forall message_data,
      reply_shaped message_data = true ->
      listen_turn (inr (JsonText message_data)) w =
      match run (handle_mcp_response message_data) w with
      | (w', Raised e) => (log1 (LogErrorProcessingMessage e) w', Returned tt)
      | (w', _) => (w', Returned tt)
      end) /\
  (forall d,
      reply_shaped (PyDict d) = false ->
      listen_turn (inr (JsonText (PyDict d))) w =
      (let message := default (PyStr "") (dict_lookup d "message") in
       let message_id := default PyNone (dict_lookup d "messageId") in
       if py_truthy message then
         with_tasks (fun l =>
           l ++ [Task (ProcessAgentMessageTask message message_id) false false]) w
       else w,
       Returned tt)) /\
  (forall message_data,
      reply_shaped message_data = false ->
      (forall d, message_data <> PyDict d) ->
      exists e,
        listen_turn (inr (JsonText message_data)) w
        = (log1 (LogErrorProcessingMessage e) w, Returned tt)) /\
  (forall data, snd (listen_turn (inr data) w) = Returned tt).
Proof.
  split; [reflexivity|]. split; [|split; [|split]].
  - intros v Hshape. rewrite listen_turn_frame, run_handle_mcp_response.
    unfold dispatched. rewrite Hshape. by destruct (resolved v w) as [w' []].
  - intros d Hshape. rewrite listen_turn_frame. unfold dispatched.
    by rewrite Hshape, accepted_dict.
  - intros v Hshape Hnd. rewrite listen_turn_frame. unfold dispatched.
    rewrite Hshape. destruct (accepted_other v w Hnd) as [e ->]. by exists e.
  - intros data. by rewrite listen_turn_frame.
Qed.

(** The four kinds of frame, on a fresh connection. *)
Lemma C2_witness :
  listen_turn (inr (JsonText (reply_frame 1 PyNone))) world_init
  = (log1 (LogUnknownRequestId (PyInt 1)) world_init, Returned tt) /\
  listen_turn (inr (JsonText (PyDict [("message", PyStr "hi")]))) world_init
  = (with_tasks (fun l =>
       l ++ [Task (ProcessAgentMessageTask (PyStr "hi") PyNone) false false])
       world_init, Returned tt) /\
  exists e,
    listen_turn (inr (JsonText (PyList []))) world_init
    = (log1 (LogErrorProcessingMessage e) world_init, Returned tt).
Proof.
  destruct (C2_listen_dispatches_each_frame world_init) as (_ & Hreply & Hwork & Hother & _).
  split; [exact (Hreply (reply_frame 1 PyNone) eq_refl)|].
  split; [exact (Hwork [("message", PyStr "hi")] eq_refl)|].
  apply Hother; [reflexivity|discriminate].
Defined.

(** C2 fails as stated: the frame [{}] decodes, is not reply shaped, and
    is handed to no task: the turn leaves the state as it was. *)
Lemma C2_counterexample :
  json_loads (JsonText (PyDict [])) = inr (PyDict []) /\
  reply_shaped (PyDict []) = false /\
  listen_turn (inr (JsonText (PyDict []))) session_init.(state)
  = (session_init.(state), Returned tt) /\
  tasks (fst (listen_turn (inr (JsonText (PyDict []))) session_init.(state)))
  = [Task ListenTask false false].
Proof. repeat split. Qed.

(** C10: a decoded frame that is not reply shaped (so also one with both
    "jsonrpc" and "method") and whose "message" is absent or the empty
    string is dropped: the turn ends normally without having awaited a
    send, creates no task, and leaves the manager and the futures as they
    were; when the frame is a JSON object nothing at all changes, not even
    the log, whatever its "messageId". *)
Theorem C10_empty_work_item_is_ignored (message_data : pyval) (w : world) :
  reply_shaped message_data = false ->
  message_of message_data = None \/ message_of message_data = Some (PyStr "") ->
  exists w',
    listen_turn (inr (JsonText message_data)) w = (w', Returned tt) /\
    tasks w' = tasks w /\ manager w' = manager w /\ futures w' = futures w /\
    (forall d, message_data = PyDict d -> w' = w).
Proof.
  intros Hshape Hmsg. rewrite listen_turn_frame. eexists. split; [reflexivity|].
  unfold dispatched. rewrite Hshape.
  assert ((exists d, message_data = PyDict d) \/ (forall d, message_data <> PyDict d))
    as [[d ->]|Hnd] by (destruct message_data; eauto; right; discriminate).
  - rewrite accepted_dict. cbn in Hmsg. cbn zeta.
    destruct Hmsg as [-> | ->]; cbn; repeat split; done.
  - destruct (accepted_other message_data w Hnd) as [e ->].
    repeat split; try done. intros d ->. by destruct (Hnd d).
Qed.

(** A work item without text, with a message id and with both "jsonrpc"
    and "method". *)
Lemma C10_witness :
  exists w',
    listen_turn
      (inr (JsonText (PyDict [("jsonrpc", PyStr "2.0"); ("method", PyStr "ping");
                              ("message", PyStr ""); ("messageId", PyStr "m1")])))
      world_init = (w', Returned tt) /\
    tasks w' = tasks world_init /\ manager w' = manager world_init /\
    futures w' = futures world_init /\
    (forall d,
        PyDict [("jsonrpc", PyStr "2.0"); ("method", PyStr "ping");
                ("message", PyStr ""); ("messageId", PyStr "m1")] = PyDict d ->
        w' = world_init).
Proof.
  apply (C10_empty_work_item_is_ignored
           (PyDict [("jsonrpc", PyStr "2.0"); ("method", PyStr "ping");
                    ("message", PyStr ""); ("messageId", PyStr "m1")]) world_init).
  - reflexivity.
  - right. reflexivity.
Defined.

(** ** Work items *)

Section WorkItems.
Variable py_str : pyval -> string.

(** C9, as the code has it: when the websocket accepts what is sent and
    the agent's call returns or raises an [Exception],
    [process_agent_message] sends exactly one frame and returns. The frame
    is an object whose first field is "result" or "error", followed by
    "messageId" exactly when the work item's [message_id] is truthy (a
    non-empty string, say); a missing, null, empty or zero [message_id] is
    not echoed. While no agent is bound the frame is
    [{"error": "Agent not ready"}]. *)
Theorem C9_one_reply_per_work_item
    (message message_id : pyval) (w : world) (o : outcomes) :
  (forall payload, of_send o payload = inr tt) ->
  (forall e, of_invoke o = inl e -> is_Exception e = true) ->
  exists w' field value,
    drive o (process_agent_message py_str message message_id) w []
    = (w',
       [PyDict ((field, value) ::
                if py_truthy message_id then [("messageId", message_id)] else [])],
       inr tt) /\
    (field = "result" \/ field = "error") /\
    (agent_executor (manager w) = None ->
     field = "error" /\ value = PyStr "Agent not ready") /\
    (forall d,
        is_Some (agent_executor (manager w)) -> of_invoke o = inr (PyDict d) ->
        field = "result" /\
        value = default (PyStr (py_str (PyDict d))) (dict_lookup d "output")) /\
    (forall e,
        is_Some (agent_executor (manager w)) -> of_invoke o = inl e ->
        field = "error" /\ value = PyStr (exn_str e)).
Proof.
  intros Hsend Hinvoke. unfold process_agent_message. cbn.
  destruct (agent_executor (manager w)) as [ex|] eqn:Hex; cbn.
  - destruct (of_invoke o) as [e|result] eqn:Ho; cbn.
    + rewrite (Hinvoke e eq_refl). cbn. rewrite Hsend. cbn.
      eexists _, "error", _. unfold with_message_id.
      split; [by destruct (py_truthy message_id)|].
      split; [by right|]. split; [done|]. split; [done|].
      by intros e' _ [= <-].
    + destruct (py_get result "output" (PyStr (py_str result))) as [e|output] eqn:Hout;
        cbn.
      * destruct result; cbn in Hout; try congruence; injection Hout as <-;
          cbn; rewrite Hsend; cbn;
          (eexists _, "error", _; unfold with_message_id;
           split; [by destruct (py_truthy message_id)|];
           split; [by right|]; split; [done|]; split; [by intros d _ [=]|done]).
      * rewrite Hsend. cbn. eexists _, "result", _. unfold with_message_id.
        split; [by destruct (py_truthy message_id)|].
        split; [by left|]. split; [done|]. split; [|done].
        intros d _ [= ->]. cbn in Hout. by injection Hout as <-.
  - rewrite Hsend. cbn. eexists _, "error", _. unfold with_message_id.
    split; [by destruct (py_truthy message_id)|].
    split; [by right|]. split; [done|].
    split; [by intros d [? [=]]|by intros e [? [=]]].
Qed.
End WorkItems.

(** The work item [{"message": "A", "messageId": "7"}], before discovery
    is over and after. *)
Lemma C9_witness :
  (exists w',
      drive agent_done (process_agent_message str_of_str (PyStr "A") (PyStr "7"))
        world_init []
      = (w', [PyDict [("error", PyStr "Agent not ready"); ("messageId", PyStr "7")]],
         inr tt)) /\
  (exists w',
      drive agent_done (process_agent_message str_of_str (PyStr "A") (PyStr "7"))
        ready []
      = (w', [PyDict [("result", PyStr "done"); ("messageId", PyStr "7")]], inr tt)).
Proof.
  split.
  - destruct (C9_one_reply_per_work_item str_of_str (PyStr "A") (PyStr "7") world_init
                agent_done) as (w' & field & value & Hrun & _ & Hnone & _).
    + reflexivity.
    + discriminate.
    + destruct (Hnone eq_refl) as [-> ->]. by exists w'.
  - destruct (C9_one_reply_per_work_item str_of_str (PyStr "A") (PyStr "7") ready
                agent_done) as (w' & field & value & Hrun & _ & _ & Hsome & _).
    + reflexivity.
    + discriminate.
    + destruct (Hsome _ (mk_is_Some _ _ eq_refl) eq_refl) as [-> ->]. by exists w'.
Defined.

(** C9 fails as stated: the work item [{"message": "A", "messageId": ""}]
    supplies a message id, and the one frame sent in reply has no
    "messageId", whatever [str] is. *)
Lemma C9_counterexample :
  ~ (exists (py_str : pyval -> string) (w' : world) (frame : pyval),
        drive agent_done (process_agent_message py_str (PyStr "A") (PyStr ""))
          world_init []
        = (w', [frame], inr tt) /\
        py_contains "messageId" frame = inr true).
Proof.
  intros (py_str & w' & frame & Hrun & Hid).
  cbn in Hrun. injection Hrun as _ <-. discriminate.
Qed.

(** ** Tools *)

Lemma drive_send_mcp_request o method params w sent :
  (forall payload, of_send o payload = inr tt) ->
  drive o (send_mcp_request method params) w sent =
  match of_future o with
  | inr response =>
      (issued w,
       sent ++ [request_frame method params (mcp_request_id (manager w) + 1)],
       inr response)
  | inl e =>
      (request_failed (mcp_request_id (manager w) + 1) e (issued w),
       sent ++ [request_frame method params (mcp_request_id (manager w) + 1)],
       inl e)
  end.
Proof.
  intros Hsend. unfold send_mcp_request. cbn. rewrite Hsend. cbn.
  destruct (of_future o) as [e|response]; cbn; [|reflexivity].
  unfold request_failed. destruct e as [[] msg]; reflexivity.
Qed.


Section ToolProperties.
Variable py_str : pyval -> string.
Variable pyobj : Type.
Variable to_jsonable_python : pyobj -> res pyval.
Variable jsonschema_to_pydantic : pyval -> res pymodel.

(** C6, as the code has it: when the keyword arguments serialise and the
    websocket accepts the frame, [_arun] sends exactly one request: method
    "tools/call", the next request id, and params holding the bound name and
    the serialised arguments. It never raises an [Exception]: on a reply
    with an "error" field it returns a string embedding the error, on any
    other reply [str] of its "result" (of [{}] when there is none), and
    when the request fails (a timeout, say) a string embedding the
    failure. *)
Theorem C6_arun_calls_the_tool
    (self : DynamicMCPTool) (kwargs : pyobj) (arguments : pyval) (w : world)
    (o : outcomes) :
  to_jsonable_python kwargs = inr arguments ->
  (forall payload, of_send o payload = inr tt) ->
  exists w' returned,
    drive o (_arun py_str pyobj to_jsonable_python self kwargs) w []
    = (w',
       [PyDict [("jsonrpc", PyStr "2.0"); ("method", PyStr "tools/call");
                ("id", PyInt (mcp_request_id (manager w) + 1));
                ("params", PyDict [("name", PyStr (name self));
                                   ("arguments", arguments)])]],
       returned) /\
    (forall d error,
        of_future o = inr (PyDict d) -> dict_lookup d "error" = Some error ->
        returned = inr ("Error calling " ++ name self ++ ": " ++ py_str error)%string) /\
    (forall d,
        of_future o = inr (PyDict d) -> dict_lookup d "error" = None ->
        returned = inr (py_str (default (PyDict []) (dict_lookup d "result")))) /\
    (forall e,
        of_future o = inl e -> is_Exception e = true ->
        returned = inr ("Error calling " ++ name self ++ ": " ++ exn_str e)%string).
Proof.
  intros Hargs Hsend. unfold _arun. rewrite Hargs. cbn. rewrite Hsend. cbn.
  destruct (of_future o) as [e|response] eqn:Ho; cbn.
  - destruct e as [[] msg]; cbn; eexists _, _;
      (split; [reflexivity|]); (split; [by intros d error [=]|]);
      (split; [by intros d [=]|]); by intros e' [= <-] Hexc.
  - destruct response as [| | | |text|items|d]; cbn;
      try destruct (is_infix "error" text); try destruct (existsb (is_str "error") items);
      cbn; try (eexists _, _; (split; [reflexivity|]); done).
    destruct (dict_lookup d "error") as [error|] eqn:Herr.
    + rewrite bool_decide_eq_true_2 by eauto. cbn.
      eexists _, _. split; [reflexivity|]. split; [|split; [|done]].
      * intros d' error' [= <-] Herr'. rewrite Herr in Herr'. by injection Herr' as <-.
      * intros d' [= <-]. congruence.
    + rewrite bool_decide_eq_false_2 by (by intros [? ?]). cbn.
      eexists _, _. split; [reflexivity|]. split; [|split; [|done]].
      * intros d' error' [= <-]. congruence.
      * by intros d' [= <-] _.
Qed.

Hypothesis converter_raises_exceptions :
  forall schema e, jsonschema_to_pydantic schema = inl e -> is_Exception e = true.

Lemma run_create_tools items : forall acc w tools,
  mapM (tool_of jsonschema_to_pydantic) items = Some tools ->
  run (create_tools jsonschema_to_pydantic items acc) w
  = (with_logged (fun l =>
       l ++ concat (map (conversion_failure jsonschema_to_pydantic) items)) w,
     Returned (acc ++ tools)).
Proof.
  induction items as [|info items IH]; intros acc w tools Htools.
  - injection Htools as <-. destruct w. unfold with_logged. cbn. by rewrite !app_nil_r.
  - cbn in Htools.
    destruct (tool_of jsonschema_to_pydantic info) as [t|] eqn:Ht; [|done].
    destruct (mapM (tool_of jsonschema_to_pydantic) items) as [ts|] eqn:Hts; [|done].
    injection Htools as <-.
    destruct info as [| | | | | |d]; try done. cbn in Ht.
    destruct (dict_lookup d "name") as [[| | | |n| |]|] eqn:Hname; try done.
    destruct (dict_lookup d "description") as [[| | | |text| |]|] eqn:Hdesc; try done.
    injection Ht as <-.
    cbn [create_tools]. rewrite !run_bind. cbn. rewrite Hname. cbn. rewrite Hdesc.
    destruct (dict_lookup d "inputSchema") as [schema|] eqn:Hs; cbn;
      [destruct (jsonschema_to_pydantic schema) as [e|model] eqn:Hc; cbn;
       [rewrite (converter_raises_exceptions _ _ Hc); cbn|]|];
      rewrite (IH _ _ _ eq_refl); destruct w; unfold with_logged; cbn;
      by rewrite <- ?app_assoc, ?app_nil_r.
Qed.

Lemma drive_create_tools_sent o items : forall acc w sent,
  (drive o (create_tools jsonschema_to_pydantic items acc) w sent).1.2 = sent.
Proof.
  induction items as [|info items IH]; intros acc w sent; [reflexivity|].
  cbn [create_tools].
  repeat match goal with
         | |- context [lift ?r] => destruct r eqn:?; cbn [lift bind try_except drive fst snd]
         | |- context [if ?b then _ else _] =>
             destruct b eqn:?; cbn [lift bind try_except drive fst snd log modify]
         end; try reflexivity; apply IH.
Qed.

Lemma discover_sends_once o w :
  (forall payload, of_send o payload = inr tt) ->
  (drive o (discover_and_create_tools jsonschema_to_pydantic) w []).1.2
  = [request_frame "tools/list" PyNone (mcp_request_id (manager w) + 1)].
Proof.
  intros Hsend. unfold discover_and_create_tools.
  rewrite drive_try_except, drive_bind, drive_send_mcp_request by done.
  destruct (of_future o) as [e|response].
  { destruct (is_Exception e); reflexivity. }
  cbn [app].
  repeat match goal with
         | |- context [lift ?r] => destruct r eqn:?; cbn [lift bind try_except drive fst snd]
         | |- context [if ?b then _ else _] =>
             destruct b eqn:?; cbn [lift bind try_except drive fst snd log modify]
         end; try reflexivity.
  all: match goal with
  | |- context [drive ?o' (create_tools ?c ?i ?a) ?w1 ?s] =>
      pose proof (drive_create_tools_sent o' i a w1 s) as Hsent;
      destruct (drive o' (create_tools c i a) w1 s) as [[w' sent'] [e'|tools]]
  end; cbn in Hsent; subst sent'; [destruct (is_Exception e')|]; reflexivity.
Qed.

Lemma discover_never_raises o w w' sent e :
  drive o (discover_and_create_tools jsonschema_to_pydantic) w [] = (w', sent, inl e) ->
  is_Exception e = false.
Proof.
  unfold discover_and_create_tools. rewrite drive_try_except.
  match goal with |- context [drive o ?c w []] => destruct (drive o c w []) as [[w1 s1] [e1|r1]] end;
    [|done].
  destruct (is_Exception e1) eqn:He1; [done|]. by intros [= _ _ <-].
Qed.

Lemma discover_tools o w d result items tools :
  (forall payload, of_send o payload = inr tt) ->
  of_future o = inr (PyDict d) ->
  dict_lookup d "error" = None ->
  dict_lookup d "result" = Some (PyDict result) ->
  dict_lookup result "tools" = Some (PyList items) ->
  mapM (tool_of jsonschema_to_pydantic) items = Some tools ->
  drive o (discover_and_create_tools jsonschema_to_pydantic) w []
  = (with_logged (fun l =>
       l ++ concat (map (conversion_failure jsonschema_to_pydantic) items)) (issued w),
     [request_frame "tools/list" PyNone (mcp_request_id (manager w) + 1)],
     inr tools).
Proof.
  intros Hsend Ho Herr Hres Htools Hmap. unfold discover_and_create_tools.
  rewrite drive_try_except, drive_bind, drive_send_mcp_request, Ho by done.
  cbn [app py_contains lift bind]. rewrite Herr.
  rewrite bool_decide_eq_false_2 by (by intros [? ?]).
  cbn [py_get lift bind]. rewrite Hres. cbn [py_get lift bind]. rewrite Htools.
  cbn [py_iter lift bind].
  pose proof (drive_run o (create_tools jsonschema_to_pydantic items []) (issued w)
                [request_frame "tools/list" PyNone (mcp_request_id (manager w) + 1)])
    as Hrun.
  rewrite (run_create_tools items [] (issued w) tools Hmap) in Hrun.
  by rewrite Hrun.
Qed.

Lemma discover_nothing o w d :
  (forall payload, of_send o payload = inr tt) ->
  of_future o = inr (PyDict d) ->
  dict_lookup d "error" = None ->
  match dict_lookup d "result" with
  | Some (PyDict result) => dict_lookup result "tools" = None
  | Some _ => False
  | None => True
  end ->
  drive o (discover_and_create_tools jsonschema_to_pydantic) w []
  = (issued w,
     [request_frame "tools/list" PyNone (mcp_request_id (manager w) + 1)],
     inr []).
Proof.
  intros Hsend Ho Herr Hres. unfold discover_and_create_tools.
  rewrite drive_try_except, drive_bind, drive_send_mcp_request, Ho by done.
  cbn [app py_contains lift bind]. rewrite Herr.
  rewrite bool_decide_eq_false_2 by (by intros [? ?]).
  cbn [py_get lift bind].
  destruct (dict_lookup d "result") as [[| | | | | |result]|]; try done.
  cbn [py_get lift bind]. by rewrite Hres.
Qed.

Lemma discover_error o w d error :
  (forall payload, of_send o payload = inr tt) ->
  of_future o = inr (PyDict d) ->
  dict_lookup d "error" = Some error ->
  drive o (discover_and_create_tools jsonschema_to_pydantic) w []
  = (log1 (LogToolsError error) (issued w),
     [request_frame "tools/list" PyNone (mcp_request_id (manager w) + 1)],
     inr []).
Proof.
  intros Hsend Ho Herr. unfold discover_and_create_tools.
  rewrite drive_try_except, drive_bind, drive_send_mcp_request, Ho by done.
  cbn [app py_contains lift bind]. rewrite Herr.
  rewrite bool_decide_eq_true_2 by eauto.
  cbn [py_getitem lift bind]. by rewrite Herr.
Qed.

Lemma discover_failed o w e :
  (forall payload, of_send o payload = inr tt) ->
  of_future o = inl e -> is_Exception e = true ->
  drive o (discover_and_create_tools jsonschema_to_pydantic) w []
  = (log1 (LogDiscoveryError e)
       (request_failed (mcp_request_id (manager w) + 1) e (issued w)),
     [request_frame "tools/list" PyNone (mcp_request_id (manager w) + 1)],
     inr []).
Proof.
  intros Hsend Ho He. unfold discover_and_create_tools.
  rewrite drive_try_except, drive_bind, drive_send_mcp_request, Ho by done.
  by rewrite He.
Qed.

Lemma discover_unsent o w e :
  of_send o (request_frame "tools/list" PyNone (mcp_request_id (manager w) + 1)) = inl e ->
  is_Exception e = true ->
  (drive o (discover_and_create_tools jsonschema_to_pydantic) w []).2 = inr [].
Proof.
  intros Hsend He. unfold discover_and_create_tools, send_mcp_request. cbn.
  unfold request_frame in Hsend. cbn in Hsend. rewrite Hsend. cbn.
  destruct e as [[] msg]; try done.
Qed.

Lemma descriptors_have_tools items :
  Forall (fun info => is_descriptor info = true) items ->
  exists tools, mapM (tool_of jsonschema_to_pydantic) items = Some tools.
Proof.
  intros Hall. apply mapM_is_Some_2. eapply Forall_impl; [exact Hall|].
  intros info Hinfo. cbn. destruct info as [| | | | | |d]; try done. cbn in *.
  destruct (dict_lookup d "name") as [[| | | |n| |]|]; try done.
  destruct (dict_lookup d "description") as [[| | | |text| |]|]; try done.
Qed.

(** The loop over the descriptors raises an [Exception] when one of them
    is not an object with a string "name" and a string "description". *)
Lemma run_create_tools_malformed items : forall acc w,
  Exists (fun info => is_descriptor info = false) items ->
  exists w' e,
    run (create_tools jsonschema_to_pydantic items acc) w = (w', Raised e) /\
    is_Exception e = true /\
    manager w' = manager w /\ futures w' = futures w.
Proof.
  induction items as [|info items IH]; intros acc w Hex; [by apply Exists_nil in Hex|].
  apply Exists_cons in Hex.
  destruct info as [| | | |text|l|d]; try (cbn; eexists _, _; repeat split; done).
  cbn [create_tools]. rewrite !run_bind. cbn.
  destruct (dict_lookup d "name") as [tool_name|] eqn:Hname; cbn;
    [|eexists _, _; repeat split; done].
  assert (forall schema w0,
             manager w0 = manager w -> futures w0 = futures w ->
             exists w' e,
               run (tool_description <- lift (py_getitem (PyDict d) "description") ;;
                    tool <- lift (DynamicMCPTool_new tool_name tool_description
                                    (PyDict d) schema) ;;
                    create_tools jsonschema_to_pydantic items (acc ++ [tool])) w0
               = (w', Raised e) /\
               is_Exception e = true /\
               manager w' = manager w /\ futures w' = futures w) as Hrest.
  { intros schema w0 Hm0 Hf0. cbn [py_getitem].
    destruct (dict_lookup d "description") as [tool_description|] eqn:Hdesc;
      [|cbn; eexists _, _; repeat split; done].
    destruct tool_name as [| | | |n| |]; try (cbn; eexists _, _; repeat split; done).
    destruct tool_description as [| | | |desc| |];
      try (cbn; eexists _, _; repeat split; done).
    destruct Hex as [Hinfo|Hex]; [cbn in Hinfo; by rewrite Hname, Hdesc in Hinfo|].
    destruct (IH (acc ++ [{| name := n; description := desc; tool_info := PyDict d;
                             args_schema := schema |}]) w0 Hex)
      as (w' & e & Hrun & He & Hm & Hf).
    exists w', e. split; [exact Hrun|]. split; [done|]. by rewrite Hm, Hf. }
  destruct (dict_lookup d "inputSchema") as [schema|] eqn:Hs; cbn.
  - destruct (jsonschema_to_pydantic schema) as [e|model] eqn:Hconv; cbn.
    + rewrite (converter_raises_exceptions _ _ Hconv). cbn.
      destruct (Hrest None (with_logged (fun l => l ++ [LogModelFailure tool_name e]) w))
        as (w' & e' & Hrun & He & Hm & Hf); [by destruct w..|].
      exists w', e'. split; [exact Hrun|done].
    + destruct (Hrest (Some model) w) as (w' & e' & Hrun & He & Hm & Hf); [done..|].
      exists w', e'. split; [exact Hrun|done].
  - destruct (Hrest None w) as (w' & e' & Hrun & He & Hm & Hf); [done..|].
    exists w', e'. split; [exact Hrun|done].
Qed.

Lemma discover_malformed o w d result tools_data items :
  (forall payload, of_send o payload = inr tt) ->
  of_future o = inr (PyDict d) ->
  dict_lookup d "error" = None ->
  dict_lookup d "result" = Some (PyDict result) ->
  dict_lookup result "tools" = Some tools_data ->
  py_iter tools_data = inr items ->
  Exists (fun info => is_descriptor info = false) items ->
  exists w' e,
    drive o (discover_and_create_tools jsonschema_to_pydantic) w []
    = (w', [request_frame "tools/list" PyNone (mcp_request_id (manager w) + 1)], inr []) /\
    last (logged w') = Some (LogDiscoveryError e) /\
    manager w' = manager (issued w) /\ futures w' = futures (issued w).
Proof.
  intros Hsend Ho Herr Hres Htools Hiter Hbad. unfold discover_and_create_tools.
  rewrite drive_try_except, drive_bind, drive_send_mcp_request, Ho by done.
  cbn [app py_contains lift bind]. rewrite Herr.
  rewrite bool_decide_eq_false_2 by (by intros [? ?]).
  cbn [py_get lift bind]. rewrite Hres. cbn [py_get lift bind]. rewrite Htools, Hiter.
  cbn [lift bind].
  pose proof (drive_run o (create_tools jsonschema_to_pydantic items []) (issued w)
                [request_frame "tools/list" PyNone (mcp_request_id (manager w) + 1)])
    as Hrun.
  destruct (run_create_tools_malformed items [] (issued w) Hbad)
    as (w' & e & Hraise & He & Hm & Hf).
  rewrite Hraise in Hrun. rewrite Hrun, He. cbn [log modify get bind drive].
  eexists _, e. split; [reflexivity|]. destruct w'. cbn in *.
  split; [apply last_snoc|done].
Qed.

(** C7, as the code has it: discovery sends exactly one request, with
    method "tools/list", the next request id and no "params", and builds
    its proxies from the list under "tools" in the reply's "result": one
    proxy per descriptor, in order, with the descriptor's "name" and
    "description" and the model of its "inputSchema". A result without
    "tools" (one that lists its descriptors under another field, say) gives
    no proxy. *)
Theorem C7_discovery_lists_the_tools (w : world) (o : outcomes) :
  (forall payload, of_send o payload = inr tt) ->
  exists w' returned,
    drive o (discover_and_create_tools jsonschema_to_pydantic) w []
    = (w',
       [PyDict [("jsonrpc", PyStr "2.0"); ("method", PyStr "tools/list");
                ("id", PyInt (mcp_request_id (manager w) + 1))]],
       returned) /\
    (forall d result items tools,
        of_future o = inr (PyDict d) ->
        dict_lookup d "error" = None ->
        dict_lookup d "result" = Some (PyDict result) ->
        dict_lookup result "tools" = Some (PyList items) ->
        mapM (tool_of jsonschema_to_pydantic) items = Some tools ->
        returned = inr tools) /\
    (forall d result,
        of_future o = inr (PyDict d) ->
        dict_lookup d "error" = None ->
        dict_lookup d "result" = Some (PyDict result) ->
        dict_lookup result "tools" = None ->
        returned = inr []).
Proof.
  intros Hsend.
  pose proof (discover_sends_once o w Hsend) as Hsent.
  destruct (drive o (discover_and_create_tools jsonschema_to_pydantic) w [])
    as [[w' sent] returned] eqn:Hd.
  cbn in Hsent. subst sent. exists w', returned. split; [reflexivity|]. split.
  - intros d result items tools Ho Herr Hres Htools Hmap.
    rewrite (discover_tools o w d result items tools) in Hd by done.
    by injection Hd as _ <-.
  - intros d result Ho Herr Hres Htools.
    rewrite (discover_nothing o w d) in Hd; [by injection Hd as _ <-|done..|].
    by rewrite Hres.
Qed.

(** C8, as the code has it: [discover_and_create_tools] never raises an
    [Exception]. It returns the empty list when the request cannot be sent,
    when it fails (a timeout, say) and when the reply has an "error" field,
    which is logged. On a reply whose descriptors all are objects with a
    string "name" and a string "description" it returns one proxy per
    descriptor, in order, each with the name, the description and the
    descriptor itself, and with the model of its "inputSchema" where it has
    one that converts; a descriptor whose "inputSchema" does not convert
    still has its proxy, with no [args_schema], and the failure is logged.
    A reply with one descriptor that is not of this form gives the empty
    list, whatever its other descriptors. *)
Theorem C8_discovery_survives_failures (w : world) (o : outcomes) :
  exists w' sent returned,
    drive o (discover_and_create_tools jsonschema_to_pydantic) w []
    = (w', sent, returned) /\
    (forall e, returned = inl e -> is_Exception e = false) /\
    (forall e,
        of_send o (PyDict [("jsonrpc", PyStr "2.0"); ("method", PyStr "tools/list");
                           ("id", PyInt (mcp_request_id (manager w) + 1))]) = inl e ->
        is_Exception e = true -> returned = inr []) /\
    ((forall payload, of_send o payload = inr tt) ->
     (forall e, of_future o = inl e -> is_Exception e = true -> returned = inr []) /\
     (forall d error,
         of_future o = inr (PyDict d) -> dict_lookup d "error" = Some error ->
         returned = inr [] /\ logged w' = logged w ++ [LogToolsError error]) /\
     (forall d result items,
         of_future o = inr (PyDict d) ->
         dict_lookup d "error" = None ->
         dict_lookup d "result" = Some (PyDict result) ->
         dict_lookup result "tools" = Some (PyList items) ->
         (Forall (fun info => is_descriptor info = true) items ->
          exists tools,
            returned = inr tools /\
            length tools = length items /\
            mapM (tool_of jsonschema_to_pydantic) items = Some tools /\
            logged w'
            = logged w ++ concat (map (conversion_failure jsonschema_to_pydantic) items) /\
            (forall i fields,
                items !! i = Some (PyDict fields) ->
                exists t,
                  tools !! i = Some t /\
                  dict_lookup fields "name" = Some (PyStr (name t)) /\
                  dict_lookup fields "description" = Some (PyStr (description t)) /\
                  tool_info t = PyDict fields /\
                  args_schema t
                  = match dict_lookup fields "inputSchema" with
                    | Some schema =>
                        match jsonschema_to_pydantic schema with
                        | inr model => Some model
                        | inl _ => None
                        end
                    | None => None
                    end) /\
            (forall i fields schema e,
                items !! i = Some (PyDict fields) ->
                dict_lookup fields "inputSchema" = Some schema ->
                jsonschema_to_pydantic schema = inl e ->
                exists t,
                  tools !! i = Some t /\ args_schema t = None /\
                  tool_info t = PyDict fields /\
                  In (LogModelFailure (default PyNone (dict_lookup fields "name")) e)
                     (logged w'))) /\
         (Exists (fun info => is_descriptor info = false) items ->
          returned = inr []))).
Proof.
  destruct (drive o (discover_and_create_tools jsonschema_to_pydantic) w [])
    as [[w' sent] returned] eqn:Hd.
  exists w', sent, returned. split; [reflexivity|]. split; [|split].
  - intros e ->. by eapply discover_never_raises.
  - intros e Hsend He. pose proof (discover_unsent o w e Hsend He) as H.
    by rewrite Hd in H.
  - intros Hsend. split; [|split].
    + intros e Ho He. rewrite (discover_failed o w e) in Hd by done.
      by injection Hd as _ _ <-.
    + intros d error Ho Herr. rewrite (discover_error o w d error) in Hd by done.
      by injection Hd as <- _ <-.
    + intros d result items Ho Herr Hres Htools. split.
      * intros Hdesc.
        destruct (descriptors_have_tools items Hdesc) as [tools Hmap].
        rewrite (discover_tools o w d result items tools) in Hd by done.
        injection Hd as <- _ <-.
        apply mapM_Some_1 in Hmap as Hall. exists tools.
        split; [done|]. split; [by rewrite (Forall2_length _ _ _ Hall)|].
        split; [done|]. split; [reflexivity|]. split.
        -- intros i fields Hi.
           destruct (Forall2_lookup_l _ _ _ _ _ Hall Hi) as (t & Ht & Htool).
           exists t. split; [done|]. cbn in Htool.
           destruct (dict_lookup fields "name") as [[| | | |n| |]|]; try done.
           destruct (dict_lookup fields "description") as [[| | | |text| |]|]; try done.
           by injection Htool as <-.
        -- intros i fields schema e Hi Hschema Hconv.
           destruct (Forall2_lookup_l _ _ _ _ _ Hall Hi) as (t & Ht & Htool).
           exists t. split; [done|]. cbn in Htool.
           destruct (dict_lookup fields "name") as [[| | | |n| |]|] eqn:Hname; try done.
           destruct (dict_lookup fields "description") as [[| | | |text| |]|]; try done.
           injection Htool as <-. cbn. rewrite Hschema, Hconv.
           split; [done|]. split; [done|].
           apply in_or_app. right. apply in_concat.
           exists (conversion_failure jsonschema_to_pydantic (PyDict fields)). split.
           ++ apply in_map. apply list_elem_of_In. by eapply list_elem_of_lookup_2.
           ++ cbn. rewrite Hschema, Hconv, Hname. by left.
      * intros Hbad.
        destruct (discover_malformed o w d result (PyList items) items
                    Hsend Ho Herr Hres Htools eq_refl Hbad) as (w1 & e & Hrun & _).
        rewrite Hrun in Hd. by injection Hd as _ _ <-.
Qed.
End ToolProperties.

Lemma strict_converter_raises schema e :
  strict_converter schema = inl e -> is_Exception e = true.
Proof.
  unfold strict_converter.
  destruct schema as [| | | | | |[|]]; intros [= <-]; reflexivity.
Qed.

(** The tool "fill" called with [field="email"], the peer answering "ok". *)
Lemma C6_witness :
  exists w' returned,
    drive answers_ok
      (_arun str_of_str pyval inr fill_tool (PyDict [("field", PyStr "email")]))
      world_init []
    = (w',
       [PyDict [("jsonrpc", PyStr "2.0"); ("method", PyStr "tools/call");
                ("id", PyInt 1);
                ("params", PyDict [("name", PyStr "fill");
                                   ("arguments", PyDict [("field", PyStr "email")])])]],
       returned) /\
    returned = inr "ok".
Proof.
  destruct (C6_arun_calls_the_tool str_of_str pyval inr fill_tool
              (PyDict [("field", PyStr "email")]) (PyDict [("field", PyStr "email")])
              world_init answers_ok eq_refl (fun _ => eq_refl))
    as (w' & returned & Hrun & _ & Hresult & _).
  exists w', returned. split; [exact Hrun|].
  exact (Hresult _ eq_refl eq_refl).
Defined.

(** C6 fails as stated, whatever [str] is: the request [_arun] sends has
    the method "tools/call", not "call"; and on the reply whose result is
    the number 5 it returns a string, not the result. *)
Lemma C6_counterexample :
  ~ (exists (py_str : pyval -> string) (w' : world) (frame : pyval) (returned : res string),
        drive answers_five (_arun py_str pyval inr fill_tool (PyDict [])) world_init []
        = (w', [frame], returned) /\
        py_get frame "method" PyNone = inr (PyStr "call")) /\
  ~ (exists (py_str : pyval -> string) (w' : world) (sent : list pyval) (text : string),
        drive answers_five (_arun py_str pyval inr fill_tool (PyDict [])) world_init []
        = (w', sent, inr text) /\
        PyStr text = PyInt 5).
Proof.
  split.
  - intros (py_str & w' & frame & returned & Hrun & Hmethod).
    cbn in Hrun. injection Hrun as _ <- _. discriminate.
  - intros (py_str & w' & sent & text & _ & [=]).
Qed.

(** Discovery against a peer that lists two tools. *)
Lemma C7_witness :
  exists w' returned,
    drive lists_tools (discover_and_create_tools strict_converter) world_init []
    = (w',
       [PyDict [("jsonrpc", PyStr "2.0"); ("method", PyStr "tools/list");
                ("id", PyInt 1)]],
       returned) /\
    exists bad good,
      returned = inr [bad; good] /\ name bad = "bad" /\ name good = "good".
Proof.
  destruct (C7_discovery_lists_the_tools strict_converter strict_converter_raises
              world_init lists_tools (fun _ => eq_refl))
    as (w' & returned & Hrun & Htools & _).
  exists w', returned. split; [exact Hrun|].
  eexists _, _. split; [exact (Htools _ _ _ _ eq_refl eq_refl eq_refl eq_refl eq_refl)|].
  split; reflexivity.
Defined.

(** C7 fails as stated, whatever the converter: the request of discovery
    has the method "tools/list", not "list"; and a descriptor listed under
    "capabilities" gives no proxy. *)
Lemma C7_counterexample :
  ~ (exists (convert : pyval -> res pymodel) (w' : world) (frame : pyval)
            (returned : res (list DynamicMCPTool)),
        drive lists_capabilities (discover_and_create_tools convert) world_init []
        = (w', [frame], returned) /\
        py_get frame "method" PyNone = inr (PyStr "list")) /\
  ~ (exists (convert : pyval -> res pymodel) (w' : world) (sent : list pyval)
            (tool : DynamicMCPTool) (tools : list DynamicMCPTool),
        drive lists_capabilities (discover_and_create_tools convert) world_init []
        = (w', sent, inr (tool :: tools))).
Proof.
  split.
  - intros (convert & w' & frame & returned & Hrun & Hmethod).
    cbn in Hrun. injection Hrun as _ <- _. discriminate.
  - intros (convert & w' & sent & tool & tools & Hrun).
    cbn in Hrun. discriminate.
Qed.

(** Discovery against a peer that lists a tool whose schema does not
    convert and a tool without a schema. *)
Lemma C8_witness :
  exists w' sent returned,
    drive lists_tools (discover_and_create_tools strict_converter) world_init []
    = (w', sent, returned) /\
    exists tools bad good,
      returned = inr tools /\ length tools = 2%nat /\
      tools !! 0%nat = Some bad /\ name bad = "bad" /\ args_schema bad = None /\
      tools !! 1%nat = Some good /\ name good = "good" /\
      In (LogModelFailure (PyStr "bad")
            (Exn (OtherException "ValueError") "unsupported schema"))
         (logged w').
Proof.
  destruct (C8_discovery_survives_failures strict_converter strict_converter_raises
              world_init lists_tools)
    as (w' & sent & returned & Hrun & _ & _ & Hsent).
  exists w', sent, returned. split; [exact Hrun|].
  destruct (Hsent (fun _ => eq_refl)) as (_ & _ & Htools).
  destruct (Htools _ _ two_descriptors eq_refl eq_refl eq_refl eq_refl) as [Hgood _].
  destruct Hgood as (tools & Hret & Hlen & _ & _ & Heach & Hfail).
  { repeat constructor. }
  destruct (Hfail 0%nat _ _ _ eq_refl eq_refl eq_refl)
    as (bad & Hb & Hschema & _ & Hlog).
  destruct (Heach 0%nat _ eq_refl) as (bad' & Hb' & Hbname & _).
  destruct (Heach 1%nat _ eq_refl) as (good & Hg & Hgname & _).
  rewrite Hb in Hb'. injection Hb' as <-.
  exists tools, bad, good. split; [exact Hret|]. split; [exact Hlen|].
  split; [exact Hb|]. split; [by injection Hbname|]. split; [exact Hschema|].
  split; [exact Hg|]. split; [by injection Hgname|exact Hlog].
Defined.

(** C8 fails as stated: in the discovery result that lists a tool whose
    schema does not convert and, after it, a descriptor without a
    "description", the conversion failure is logged and handled, and yet
    the failing descriptor yields no proxy: the [KeyError] of the second
    descriptor leaves the loop and discovery returns the empty list. *)
Lemma C8_counterexample :
  strict_converter (PyStr "?")
  = inl (Exn (OtherException "ValueError") "unsupported schema") /\
  (exists w',
      drive lists_a_malformed_descriptor (discover_and_create_tools strict_converter)
        world_init []
      = (w', [request_frame "tools/list" PyNone 1], inr []) /\
      logged w'
      = [LogModelFailure (PyStr "bad")
           (Exn (OtherException "ValueError") "unsupported schema");
         LogDiscoveryError (Exn KeyError "'description'")]) /\
  ~ (exists w' sent tools bad,
        drive lists_a_malformed_descriptor (discover_and_create_tools strict_converter)
          world_init []
        = (w', sent, inr tools) /\
        In bad tools /\ name bad = "bad").
Proof.
  split; [reflexivity|]. split.
  - eexists. split; reflexivity.
  - intros (w' & sent & tools & bad & Hrun & Hin & _).
    cbn in Hrun. injection Hrun as _ _ <-. destruct Hin.
Qed.

(** * Further proofs *)

(** ** Futures over the life of a connection *)

Lemma session_init_futures_ok : futures_ok session_init.
Proof. split; cbn; done. Qed.

Lemma request_failed_table n e w m fut :
  pending_mcp_requests (manager w) !! m = Some fut -> m <> n ->
  pending_mcp_requests (manager (request_failed n e w)) !! m = Some fut.
Proof. intros H Hne. by rewrite request_failed_pending_ne. Qed.

Lemma step_futures_ok s ev s' :
  session_ok s -> futures_ok s -> step s ev = Some s' -> futures_ok s'.
Proof.
  intros Hok [Ht Ha Hr] Hstep. destruct ev as [method params|i o|i|i|i|o].
  - unfold step in Hstep.
    destruct (run_send_mcp_request method params (state s)) as (k & Hrun & Hk).
    rewrite Hrun in Hstep. injection Hstep as <-.
    pose proof (ok_counter s Hok) as Hc. pose proof (ok_futures s Hok) as Hf.
    split; cbn.
    + intros n fut [[<- <-]|[_ H]]%lookup_insert_Some.
      * left. rewrite lookup_app_r by lia. by rewrite Nat.sub_diag.
      * destruct (ok_pending s Hok n fut H) as [_ Hlt].
        rewrite lookup_app_l by lia. by apply (Ht n).
    + intros i c [H|[Hi H]]%lookup_app_Some Hfl.
      * apply lookup_lt_Some in H as Hlt. rewrite lookup_app_l by lia. by eapply Ha.
      * destruct (i - _)%nat as [|[]] eqn:Hd; try done.
        left. rewrite lookup_app_r by lia. by replace (i - _)%nat with 0%nat by lia.
    + intros i c v [H|[Hi H]]%lookup_app_Some Hp.
      * apply lookup_lt_Some in H as Hlt. rewrite lookup_app_l by lia. by eapply Hr.
      * destruct (i - _)%nat as [|[]] eqn:Hd; try done. injection H as <-. done.
  - unfold step in Hstep.
    destruct (calls s !! i) as [[r p]|] eqn:Hi; [|done].
    destruct p as [| | |payload k| |]; try done.
    injection Hstep as <-.
    destruct (ok_calls s Hok i _ Hi) as [Hid [Hsent Hfail]]. cbn in Hsent, Hfail.
    unfold resume. destruct o as [e|[]].
    + rewrite Hfail. split; cbn [state calls].
      * intros n fut H%request_failed_pending. rewrite request_failed_futures.
        by apply (Ht n).
      * intros j cj [(-> & <- & Hlt)|(Hji & H)]%list_lookup_insert_Some Hfl; [done|].
        rewrite request_failed_futures. by eapply Ha.
      * intros j cj v [(-> & <- & Hlt)|(Hji & H)]%list_lookup_insert_Some Hp; [done|].
        rewrite request_failed_futures. by eapply Hr.
    + destruct (Hsent (state s)) as (k' & -> & Hk'). split; cbn [state calls]; [done| |].
      * intros j cj [(-> & <- & Hlt)|(Hji & H)]%list_lookup_insert_Some Hfl;
          [by eapply Ha|by eapply Ha].
      * intros j cj v [(-> & <- & Hlt)|(Hji & H)]%list_lookup_insert_Some Hp;
          [done|by eapply Hr].
  - unfold step in Hstep.
    destruct (calls s !! i) as [[r p]|] eqn:Hi; [|done].
    destruct p as [| | | |fut t k|]; try done.
    destruct (futures (state s) !! fut) as [[|v|]|] eqn:Hfut; try done.
    injection Hstep as <-.
    destruct (ok_calls s Hok i _ Hi) as [Hid (-> & -> & Hret & Hfail)].
    unfold resume. rewrite Hret. split; cbn [state calls]; [done| |].
    + intros j cj [(-> & <- & Hlt)|(Hji & H)]%list_lookup_insert_Some Hfl;
        [done|by eapply Ha].
    + intros j cj v' [(-> & <- & Hlt)|(Hji & H)]%list_lookup_insert_Some Hp;
        [|by eapply Hr].
      cbn in Hp. by injection Hp as <-.
  - unfold step in Hstep.
    destruct (calls s !! i) as [[r p]|] eqn:Hi; [|done].
    destruct p as [| | | |fut t k|]; try done.
    destruct (futures (state s) !! fut) as [[|v|]|] eqn:Hfut; try done.
    injection Hstep as <-.
    destruct (ok_calls s Hok i _ Hi) as [Hid (-> & -> & Hret & Hfail)].
    unfold resume. rewrite Hfail. split; cbn [state calls].
    + intros n fut H%request_failed_pending. rewrite request_failed_futures.
      cbn in H |- *. destruct (decide (fut = i)) as [->|Hne].
      * right. apply list_lookup_insert_eq. by eapply lookup_lt_Some.
      * rewrite list_lookup_insert_ne by done. by apply (Ht n).
    + intros j cj [(-> & <- & Hlt)|(Hji & H)]%list_lookup_insert_Some Hfl; [done|].
      rewrite request_failed_futures. cbn.
      rewrite list_lookup_insert_ne by done. by eapply Ha.
    + intros j cj v' [(-> & <- & Hlt)|(Hji & H)]%list_lookup_insert_Some Hp; [done|].
      rewrite request_failed_futures. cbn.
      rewrite list_lookup_insert_ne by done. by eapply Hr.
  - unfold step in Hstep.
    destruct (calls s !! i) as [[r p]|] eqn:Hi; [|done].
    destruct p as [| | | |fut t k|]; try done.
    destruct (futures (state s) !! fut) as [[|v|]|] eqn:Hfut; try done.
    injection Hstep as <-.
    destruct (ok_calls s Hok i _ Hi) as [Hid (-> & -> & Hret & Hfail)].
    unfold resume. rewrite Hfail. split; cbn [state calls].
    + intros n fut H%request_failed_pending. rewrite request_failed_futures.
      cbn in H |- *. destruct (decide (fut = i)) as [->|Hne].
      * right. apply list_lookup_insert_eq. by eapply lookup_lt_Some.
      * rewrite list_lookup_insert_ne by done. by apply (Ht n).
    + intros j cj [(-> & <- & Hlt)|(Hji & H)]%list_lookup_insert_Some Hfl; [done|].
      rewrite request_failed_futures. cbn.
      rewrite list_lookup_insert_ne by done. by eapply Ha.
    + intros j cj v' [(-> & <- & Hlt)|(Hji & H)]%list_lookup_insert_Some Hp; [done|].
      rewrite request_failed_futures. cbn.
      rewrite list_lookup_insert_ne by done. by eapply Hr.
  - unfold step in Hstep. destruct (listening s); [|done].
    destruct o as [e|data].
    + rewrite listen_turn_raise in Hstep. injection Hstep as <-.
      rewrite run_listen_exit. cbn [fst].
      split; cbn [state calls];
        rewrite ?finish_task_manager, ?finish_task_futures,
          ?torn_down_manager, ?torn_down_futures; done.
    + rewrite listen_turn_frame in Hstep. injection Hstep as <-.
      destruct (dispatched_effect data (state s))
        as [|r|t|n fut Hn Hdone|n fut v Hn Hv Hdone]; try (by split).
      * split; cbn; [|done..].
        intros m f [_ H]%lookup_delete_Some. by apply (Ht m).
      * destruct (ok_pending s Hok n fut Hn) as [-> Hlt].
        assert (Hfut : futures (state s) !! fut = Some FutPending).
        { destruct (Ht _ _ Hn) as [H|H]; [done|]. by rewrite H in Hdone. }
        split; cbn.
        -- intros m f [Hne H]%lookup_delete_Some.
           destruct (ok_pending s Hok m f H) as [-> _].
           rewrite list_lookup_insert_ne by lia. by apply (Ht _ _ H).
        -- intros i c Hi Hfl. destruct (decide (i = fut)) as [->|Hne].
           ++ right. eexists. apply list_lookup_insert_eq. by eapply lookup_lt_Some.
           ++ rewrite list_lookup_insert_ne by done. by eapply Ha.
        -- intros i c v' Hi Hp. destruct (decide (i = fut)) as [->|Hne].
           ++ rewrite (Hr _ _ _ Hi Hp) in Hfut. done.
           ++ rewrite list_lookup_insert_ne by done. by eapply Hr.
Qed.

Lemma steps_futures_ok evs : forall s s',
  session_ok s -> futures_ok s -> steps s evs = Some s' -> futures_ok s'.
Proof.
  induction evs as [|ev evs IH]; intros s s' Hok Hfok; cbn [steps].
  - by intros [= <-].
  - destruct (step s ev) as [s1|] eqn:Hstep; [|done].
    apply IH; [by eapply step_ok|by eapply step_futures_ok].
Qed.

Lemma reachable_futures_ok evs s : steps session_init evs = Some s -> futures_ok s.
Proof. apply steps_futures_ok; [apply session_init_ok|apply session_init_futures_ok]. Qed.

Lemma step_done_stays s ev s' f x :
  session_ok s -> step s ev = Some s' ->
  futures (state s) !! f = Some x -> x <> FutPending ->
  futures (state s') !! f = Some x.
Proof.
  intros Hok Hstep Hf Hx. destruct ev as [method params|i o|i|i|i|o].
  - unfold step in Hstep.
    destruct (run_send_mcp_request method params (state s)) as (k & Hrun & Hk).
    rewrite Hrun in Hstep. injection Hstep as <-. cbn.
    rewrite lookup_app_l; [done|by eapply lookup_lt_Some].
  - unfold step in Hstep.
    destruct (calls s !! i) as [[r p]|] eqn:Hi; [|done].
    destruct p as [| | |payload k| |]; try done.
    injection Hstep as <-.
    destruct (ok_calls s Hok i _ Hi) as [Hid [Hsent Hfail]]. cbn in Hsent, Hfail.
    unfold resume. destruct o as [e|[]].
    + rewrite Hfail. cbn [state]. by rewrite request_failed_futures.
    + by destruct (Hsent (state s)) as (k' & -> & Hk').
  - unfold step in Hstep.
    destruct (calls s !! i) as [[r p]|] eqn:Hi; [|done].
    destruct p as [| | | |fut t k|]; try done.
    destruct (futures (state s) !! fut) as [[|v|]|] eqn:Hfut; try done.
    injection Hstep as <-.
    destruct (ok_calls s Hok i _ Hi) as [Hid (-> & -> & Hret & Hfail)].
    unfold resume. by rewrite Hret.
  - unfold step in Hstep.
    destruct (calls s !! i) as [[r p]|] eqn:Hi; [|done].
    destruct p as [| | | |fut t k|]; try done.
    destruct (futures (state s) !! fut) as [[|v|]|] eqn:Hfut; try done.
    injection Hstep as <-.
    destruct (ok_calls s Hok i _ Hi) as [Hid (-> & -> & Hret & Hfail)].
    unfold resume. rewrite Hfail. cbn [state]. rewrite request_failed_futures. cbn.
    rewrite list_lookup_insert_ne; [done|]. intros ->. congruence.
  - unfold step in Hstep.
    destruct (calls s !! i) as [[r p]|] eqn:Hi; [|done].
    destruct p as [| | | |fut t k|]; try done.
    destruct (futures (state s) !! fut) as [[|v|]|] eqn:Hfut; try done.
    injection Hstep as <-.
    destruct (ok_calls s Hok i _ Hi) as [Hid (-> & -> & Hret & Hfail)].
    unfold resume. rewrite Hfail. cbn [state]. rewrite request_failed_futures. cbn.
    rewrite list_lookup_insert_ne; [done|]. intros ->. congruence.
  - unfold step in Hstep. destruct (listening s); [|done].
    destruct o as [e|data].
    + rewrite listen_turn_raise in Hstep. injection Hstep as <-.
      rewrite run_listen_exit. cbn [fst state].
      by rewrite finish_task_futures, torn_down_futures.
    + rewrite listen_turn_frame in Hstep. injection Hstep as <-. cbn [state].
      destruct (dispatched_effect data (state s))
        as [|r|t|n fut Hn Hdone|n fut v Hn Hv Hdone]; try done.
      cbn. rewrite list_lookup_insert_ne; [done|]. intros ->.
      rewrite Hf in Hdone. by destruct x.
Qed.

Lemma steps_done_stays evs : forall s s' f x,
  session_ok s -> steps s evs = Some s' ->
  futures (state s) !! f = Some x -> x <> FutPending ->
  futures (state s') !! f = Some x.
Proof.
  induction evs as [|ev evs IH]; intros s s' f x Hok; cbn [steps].
  - by intros [= <-].
  - destruct (step s ev) as [s1|] eqn:Hstep; [|done].
    intros Hsteps Hf Hx. apply (IH s1 s' f x); [by eapply step_ok|done| |done].
    by eapply step_done_stays.
Qed.

(** X1: a future is assigned at most once. On every connection, once a
    future holds a result or has been cancelled it stays exactly so,
    whatever the calls, replies, timeouts and cancellations that follow: a
    second reply never overwrites a result, and a reply coming after the
    timeout never revives a cancelled future. *)
Theorem X1_a_done_future_never_changes
    (evs evs' : list event) (s s' : session) (f : nat) (x : future) :
  steps session_init evs = Some s ->
  steps s evs' = Some s' ->
  futures (state s) !! f = Some x -> x <> FutPending ->
  futures (state s') !! f = Some x.
Proof. intros Hok%reachable_ok. by apply steps_done_stays. Qed.

Lemma timed_out_run : steps session_init timed_out = Some timed_out_end.
Proof. vm_compute. reflexivity. Qed.

Lemma late_reply_step :
  steps timed_out_end [Receive (inr (JsonText (reply_frame 1 (PyDict []))))]
  = Some late_reply_end.
Proof. vm_compute. reflexivity. Qed.

(** The future of a timed out request, when its reply comes late. *)
Lemma X1_witness : futures (state late_reply_end) !! 0%nat = Some FutCancelled.
Proof.
  apply (X1_a_done_future_never_changes timed_out
           [Receive (inr (JsonText (reply_frame 1 (PyDict []))))]
           timed_out_end late_reply_end 0 FutCancelled timed_out_run late_reply_step).
  - reflexivity.
  - discriminate.
Defined.

(** X2: on every connection the pending table only holds requests
    without a result: the future of each entry is pending or cancelled.
    So the entry of a request is gone as soon as its reply has been taken,
    and a call that has returned a response has no entry left. *)
Theorem X2_the_table_holds_no_answered_request (evs : list event) (s : session) :
  steps session_init evs = Some s ->
  (forall n fut,
      pending_mcp_requests (manager (state s)) !! n = Some fut ->
      futures (state s) !! fut = Some FutPending \/
      futures (state s) !! fut = Some FutCancelled) /\
  (forall i c v,
      calls s !! i = Some c -> progress c = Returned v ->
      pending_mcp_requests (manager (state s)) !! (Z.of_nat i + 1) = None).
Proof.
  intros Hrun. pose proof (reachable_ok _ _ Hrun) as Hok.
  pose proof (reachable_futures_ok _ _ Hrun) as [Ht Ha Hr].
  split; [exact Ht|].
  intros i c v Hi Hp.
  destruct (pending_mcp_requests (manager (state s)) !! (Z.of_nat i + 1))
    as [fut|] eqn:Hn; [|done].
  destruct (ok_pending s Hok _ _ Hn) as [Heq _].
  assert (fut = i) as -> by lia.
  pose proof (Hr i c v Hi Hp) as Hres.
  destruct (Ht _ _ Hn) as [H|H]; rewrite H in Hres; done.
Qed.

(** Two calls that have both returned. *)
Lemma X2_witness :
  steps session_init two_calls = Some two_calls_end /\
  (forall i c v,
      calls two_calls_end !! i = Some c -> progress c = Returned v ->
      pending_mcp_requests (manager (state two_calls_end)) !! (Z.of_nat i + 1) = None).
Proof.
  split; [exact two_calls_run|].
  exact (proj2 (X2_the_table_holds_no_answered_request two_calls two_calls_end
                  two_calls_run)).
Defined.

(** X3: a call waiting for its reply is never stuck. On every connection,
    for a call suspended in [wait_for], exactly one of two steps is
    possible: its result is ready and it returns, or its future is still
    pending and its timeout can fire; this holds also after the listener
    has gone. *)
Theorem X3_a_waiting_call_can_always_end (evs : list event) (s : session) (i : nat) :
  steps session_init evs = Some s ->
  waiting s i = true ->
  (is_Some (step s (ResultReady i)) /\ step s (TimerFires i) = None) \/
  (is_Some (step s (TimerFires i)) /\ step s (ResultReady i) = None).
Proof.
  intros Hrun Hw. pose proof (reachable_ok _ _ Hrun) as Hok.
  pose proof (reachable_futures_ok _ _ Hrun) as [Ht Ha Hr].
  unfold waiting in Hw. destruct (calls s !! i) as [[r p]|] eqn:Hi; [|done].
  destruct p as [| | | |fut t k|]; try done.
  destruct (ok_calls s Hok i _ Hi) as [Hid (-> & -> & Hret & Hfail)].
  unfold step. rewrite Hi.
  destruct (Ha i _ Hi eq_refl) as [H|[v H]]; rewrite H.
  - right. split; [by eexists|done].
  - left. split; [by eexists|done].
Qed.

Lemma abandoned_run : steps session_init abandoned = Some abandoned_end.
Proof. vm_compute. reflexivity. Qed.

(** The call left waiting by the disconnect can still time out. *)
Lemma X3_witness :
  is_Some (step abandoned_end (TimerFires 0)) /\
  step abandoned_end (ResultReady 0) = None.
Proof.
  destruct (X3_a_waiting_call_can_always_end abandoned abandoned_end 0
              abandoned_run eq_refl) as [[_ H]|H].
  - discriminate H.
  - exact H.
Defined.

(** ** Failed sends, late and early replies *)

(** X4: when [send_text] raises in a call of [send_mcp_request], the call
    re-raises the same exception and no future changes. If the exception
    is an [Exception] other than [TimeoutError], the entry of the request is
    taken out of the table and the failure is logged; if it is a
    cancellation, nothing is logged and the entry stays in the table. *)
Theorem X4_a_failed_send_takes_the_entry_out
    (evs : list event) (s s' : session) (i : nat) (e : exn) :
  steps session_init evs = Some s ->
  step s (SendReturns i (inl e)) = Some s' ->
  outcome s' i = Some (inl e) /\
  futures (state s') = futures (state s) /\
  (is_Exception e = true -> is_class TimeoutError e = false ->
   pending_mcp_requests (manager (state s'))
   = delete (Z.of_nat i + 1) (pending_mcp_requests (manager (state s))) /\
   logged (state s') = logged (state s) ++ [LogRequestError e]) /\
  (is_Exception e = false -> state s' = state s).
Proof.
  intros Hok%reachable_ok Hstep. unfold step in Hstep.
  destruct (calls s !! i) as [[r p]|] eqn:Hi; [|done].
  destruct p as [| | |payload k| |]; try done.
  injection Hstep as <-.
  destruct (ok_calls s Hok i _ Hi) as [Hid [Hsent Hfail]]. cbn in Hsent, Hfail.
  unfold resume. rewrite Hfail. unfold outcome. cbn [state calls].
  rewrite list_lookup_insert_eq by (by eapply lookup_lt_Some).
  split; [done|]. split; [apply request_failed_futures|].
  unfold request_failed. split.
  - by intros -> ->.
  - intros He. destruct e as [[] msg]; done.
Qed.

Lemma one_call_sending_run :
  steps session_init one_call_sending = Some one_call_sending_end.
Proof. vm_compute. reflexivity. Qed.

(** The first request of a connection, sent on a closed websocket. *)
Lemma X4_witness :
  exists s',
    step one_call_sending_end (SendReturns 0 (inl closed_socket)) = Some s' /\
    outcome s' 0 = Some (inl closed_socket) /\
    pending_mcp_requests (manager (state s')) !! 1 = None.
Proof.
  eexists. split; [reflexivity|].
  destruct (X4_a_failed_send_takes_the_entry_out one_call_sending one_call_sending_end
              _ 0 closed_socket one_call_sending_run eq_refl) as (Hout & _ & Hexc & _).
  split; [exact Hout|].
  destruct (Hexc eq_refl eq_refl) as [-> _]. apply lookup_delete_eq.
Defined.

(** X5: a reply whose request is still in the table but whose future is
    done already (cancelled by the timeout, say) is dropped without a
    trace: the turn takes the entry out of the table and changes nothing
    else; no future is touched and, unlike for an unknown id, nothing is
    logged. *)
Theorem X5_a_late_reply_is_dropped_silently
    (mcp_data : pyval) (w : world) (n : Z) (fut : nat) (x : future) :
  reply_shaped mcp_data = true -> replies_to n mcp_data = true ->
  pending_mcp_requests (manager w) !! n = Some fut ->
  futures w !! fut = Some x -> x <> FutPending ->
  exists w',
    listen_turn (inr (JsonText mcp_data)) w = (w', Returned tt) /\
    pending_mcp_requests (manager w') = delete n (pending_mcp_requests (manager w)) /\
    mcp_request_id (manager w') = mcp_request_id (manager w) /\
    futures w' = futures w /\ logged w' = logged w /\ tasks w' = tasks w.
Proof.
  intros Hshape Hreply Hn Hfut Hx. rewrite listen_turn_frame. eexists.
  split; [reflexivity|].
  unfold dispatched. rewrite Hshape. unfold resolved.
  unfold replies_to in Hreply.
  destruct (py_get mcp_data "id" PyNone) as [?|request_id]; [done|].
  destruct (int_key request_id) as [?|[m|]]; try done.
  apply Z.eqb_eq in Hreply as ->. rewrite Hn, Hfut.
  by destruct x.
Qed.

(** The reply to a request that has timed out. *)
Lemma X5_witness :
  exists w',
    listen_turn (inr (JsonText (reply_frame 1 (PyDict [])))) (state timed_out_end)
    = (w', Returned tt) /\
    pending_mcp_requests (manager w') !! 1 = None /\
    logged w' = logged (state timed_out_end).
Proof.
  destruct (X5_a_late_reply_is_dropped_silently (reply_frame 1 (PyDict []))
              (state timed_out_end) 1 0 FutCancelled)
    as (w' & Hturn & Htable & _ & _ & Hlog & _); try reflexivity; try discriminate.
  exists w'. split; [exact Hturn|]. split; [|exact Hlog].
  rewrite Htable. apply lookup_delete_eq.
Defined.

(** X6: no reply is lost for having come early. A call registers its
    future in the table before it sends its frame, so on every connection
    a reply that is received while the call is still suspended in
    [send_text] completes the call's future, and the call returns that reply
    as soon as its send has returned and it reaches [wait_for]. *)
Theorem X6_an_early_reply_is_kept
    (evs : list event) (s : session) (i : nat) (mcp_data : pyval) :
  steps session_init evs = Some s ->
  sending s i = true ->
  futures (state s) !! i = Some FutPending ->
  listening s = true ->
  reply_shaped mcp_data = true ->
  replies_to (Z.of_nat i + 1) mcp_data = true ->
  exists s',
    steps s [Receive (inr (JsonText mcp_data)); SendReturns i (inr tt); ResultReady i]
    = Some s' /\
    outcome s' i = Some (inr mcp_data).
Proof.
  intros Hok%reachable_ok Hs Hfut Hl Hshape Hreply.
  unfold sending in Hs. destruct (calls s !! i) as [[r p]|] eqn:Hi; [|done].
  destruct p as [| | |payload k| |]; try done.
  destruct (ok_calls s Hok i _ Hi) as [Hid [Hsent Hfail]]. cbn in Hsent.
  pose proof (ok_waiting s Hok i _ Hi eq_refl Hfut) as Hpend.
  assert (Hlt : (i < length (futures (state s)))%nat) by (by eapply lookup_lt_Some).
  assert (Hlt' : (i < length (calls s))%nat) by (by eapply lookup_lt_Some).
  cbn [steps]. unfold step at 1. rewrite Hl, listen_turn_frame.
  rewrite (dispatched_delivers _ _ _ _ Hshape Hreply Hpend Hfut).
  unfold step at 1. cbn [calls state]. rewrite Hi. unfold resume.
  match goal with |- context [run (k (inr tt)) ?w1] =>
    destruct (Hsent w1) as (k' & -> & Hret & _) end.
  unfold step at 1. cbn [calls state futures with_futures popped with_manager].
  rewrite (list_lookup_insert_eq _ _ _ Hlt'), (list_lookup_insert_eq _ _ _ Hlt).
  unfold resume. rewrite Hret. eexists. split; [reflexivity|].
  unfold outcome. cbn [calls].
  by rewrite list_lookup_insert_eq by (by rewrite length_insert).
Qed.

(** The reply to the first request comes before its send has returned. *)
Lemma X6_witness :
  exists s',
    steps one_call_sending_end
      [Receive (inr (JsonText (reply_frame 1 (PyStr "early"))));
       SendReturns 0 (inr tt); ResultReady 0] = Some s' /\
    outcome s' 0 = Some (inr (reply_frame 1 (PyStr "early"))).
Proof.
  apply (X6_an_early_reply_is_kept one_call_sending one_call_sending_end 0
           (reply_frame 1 (PyStr "early")) one_call_sending_run);
    reflexivity.
Defined.

(** ** Single functions of the manager *)

(** X7: the frame of a request. [send_mcp_request] hands to [send_text],
    before anything else is awaited, an object with "jsonrpc" "2.0", the
    method, and as "id" the manager's counter plus one; it has a "params"
    field exactly when [params] is truthy, so [None] and also an empty
    dict of params are left out of the frame. *)
Theorem X7_falsy_params_are_left_out (method : string) (params : pyval) (w : world) :
  exists w' frame k,
    run (send_mcp_request method params) w = (w', OnSend frame k) /\
    py_get frame "jsonrpc" PyNone = inr (PyStr "2.0") /\
    py_get frame "method" PyNone = inr (PyStr method) /\
    py_get frame "id" PyNone = inr (PyInt (mcp_request_id (manager w) + 1)) /\
    py_contains "params" frame = inr (py_truthy params) /\
    py_get frame "params" PyNone = inr (if py_truthy params then params else PyNone).
Proof.
  destruct (run_send_mcp_request method params w) as (k & Hrun & _).
  eexists _, _, k. split; [exact Hrun|].
  unfold request_frame. by destruct (py_truthy params).
Qed.

(** X8: when [handle_mcp_response] raises. Given a frame that is no JSON
    object it raises [AttributeError]; given an object whose "id" is a list
    or an object it raises [TypeError] (the id cannot be a key); in both
    cases the state is untouched. Given any other object, with or without
    an "id", it returns. *)
Theorem X8_handle_mcp_response_raises_on_odd_frames (mcp_data : pyval) (w : world) :
  match mcp_data with
  | PyDict d =>
      if hashable (default PyNone (dict_lookup d "id")) then
        exists w', run (handle_mcp_response mcp_data) w = (w', Returned tt)
      else
        exists e, run (handle_mcp_response mcp_data) w = (w, Raised e) /\
                  exn_class_of e = TypeError
  | _ =>
      exists e, run (handle_mcp_response mcp_data) w = (w, Raised e) /\
                exn_class_of e = AttributeError
  end.
Proof.
  rewrite run_handle_mcp_response. unfold resolved.
  destruct mcp_data as [| | | | | |d]; cbn; try (by eexists).
  destruct (dict_lookup d "id") as [[| | | | | |]|]; cbn; try (by eexists);
    repeat case_match; by eexists.
Qed.

(** X9: an id is matched the way Python compares dict keys. A reply whose
    "id" is a float with the value of a pending request's id (the JSON
    number 1.0 for request 1), or [true] for request 1, completes that
    request's future with the frame and takes its entry out of the table. *)
Theorem X9_a_float_or_bool_id_matches
    (d : list (string * pyval)) (w : world) (n : Z) (fut : nat) :
  pending_mcp_requests (manager w) !! n = Some fut ->
  futures w !! fut = Some FutPending ->
  (exists x, dict_lookup d "id" = Some (PyFloat x) /\ float_is x n) \/
  (dict_lookup d "id" = Some (PyBool true) /\ n = 1) ->
  exists w',
    run (handle_mcp_response (PyDict d)) w = (w', Returned tt) /\
    futures w' !! fut = Some (FutResult (PyDict d)) /\
    pending_mcp_requests (manager w') !! n = None.
Proof.
  intros Hn Hfut Hid. rewrite run_handle_mcp_response. unfold resolved. cbn.
  assert (int_key (default PyNone (dict_lookup d "id")) = inr (Some n)) as Hkey.
  { destruct Hid as [(x & -> & Hx)|[-> ->]]; [|reflexivity]. cbn.
    destruct x as [| |m e]; try done. cbn in Hx |- *.
    destruct Hx as [[He ->]|[He ->]].
    - by rewrite (proj2 (Z.leb_le 0 e) He).
    - rewrite (proj2 (Z.leb_gt 0 e) He).
      assert (0 < 2 ^ (- e)) by (apply Z.pow_pos_nonneg; lia).
      rewrite Z_mod_mult. cbn. by rewrite Z_div_mult by lia. }
  destruct (dict_lookup d "id") as [request_id|]; cbn in Hkey; [|done].
  rewrite Hkey, Hn, Hfut. cbn. eexists. split; [reflexivity|]. cbn.
  split; [apply list_lookup_insert_eq; by eapply lookup_lt_Some|apply lookup_delete_eq].
Qed.

(** Request 1 is waiting; its reply carries the id 1.0. *)
Lemma X9_witness :
  exists w',
    run (handle_mcp_response
           (PyDict [("jsonrpc", PyStr "2.0"); ("id", PyFloat float_one)]))
      (state one_call_waiting_end) = (w', Returned tt) /\
    futures w' !! 0%nat
    = Some (FutResult (PyDict [("jsonrpc", PyStr "2.0"); ("id", PyFloat float_one)])) /\
    pending_mcp_requests (manager w') !! 1 = None.
Proof.
  apply (X9_a_float_or_bool_id_matches
           [("jsonrpc", PyStr "2.0"); ("id", PyFloat float_one)]
           (state one_call_waiting_end) 1 0).
  - reflexivity.
  - reflexivity.
  - left. exists float_one. split; [reflexivity|]. right. split; reflexivity.
Defined.

(** X10: what a turn of [listen] never does. Whatever text is received,
    the turn leaves the request counter, the bound agent, the listener
    handle and the number of futures as they were; it adds no entry to the
    pending table (it can only take entries out); it creates at most one
    task and writes at most one log record. *)
Theorem X10_a_turn_only_takes_entries_out (data : text_frame) (w : world) :
  exists w',
    listen_turn (inr data) w = (w', Returned tt) /\
    mcp_request_id (manager w') = mcp_request_id (manager w) /\
    agent_executor (manager w') = agent_executor (manager w) /\
    listener_task (manager w') = listener_task (manager w) /\
    length (futures w') = length (futures w) /\
    (forall n fut,
        pending_mcp_requests (manager w') !! n = Some fut ->
        pending_mcp_requests (manager w) !! n = Some fut) /\
    (tasks w' = tasks w \/ exists t, tasks w' = tasks w ++ [t]) /\
    (logged w' = logged w \/ exists r, logged w' = logged w ++ [r]).
Proof.
  rewrite listen_turn_frame. eexists. split; [reflexivity|].
  destruct (dispatched_effect data w) as [|r|t|n fut Hn Hdone|n fut v Hn Hv Hdone];
    cbn; rewrite ?length_insert; repeat split; eauto;
    intros m f [_ H]%lookup_delete_Some; done.
Qed.

Lemma cleaned_twice w : cleaned (cleaned w) = log1 LogCleanedUp (cleaned w).
Proof.
  assert (forall t y, listener_task (manager w) = Some t ->
                      tasks (cleaned w) !! t = Some y ->
                      task_done y = true \/ y = Task (task_body y) false true) as Hy.
  { intros t y Hl. unfold cleaned. rewrite Hl.
    destruct (tasks w !! t) as [x|] eqn:Ht; [|cbn; congruence].
    destruct (task_done x) eqn:Hx; cbn.
    - rewrite Ht. intros [= <-]. by left.
    - rewrite list_lookup_insert_eq by (by eapply lookup_lt_Some).
      intros [= <-]. by right. }
  unfold cleaned at 1. rewrite cleaned_manager. f_equal.
  destruct (listener_task (manager w)) as [t|]; [|done].
  destruct (tasks (cleaned w) !! t) as [y|] eqn:Ht; [|done].
  destruct (Hy t y eq_refl Ht) as [->|Heq]; [done|].
  destruct (task_done y); [done|].
  unfold with_tasks. rewrite <- Heq, (list_insert_id _ _ _ Ht). by destruct (cleaned w).
Qed.

(** X11: [cleanup] can be called twice, as it is at the end of every
    connection (by [listen]'s [finally] and by the handler's). It never
    raises, and the second call changes nothing but the log, to which it
    adds its record again: a cancellation that was requested is not undone
    and a finished listener is left alone. Without a listener task it only
    logs. *)
Theorem X11_cleanup_twice_is_cleanup_once (w : world) :
  exists w1 w2,
    run cleanup w = (w1, Returned tt) /\
    run cleanup w1 = (w2, Returned tt) /\
    manager w2 = manager w1 /\ futures w2 = futures w1 /\ tasks w2 = tasks w1 /\
    logged w2 = logged w1 ++ [LogCleanedUp] /\
    (listener_task (manager w) = None -> tasks w1 = tasks w).
Proof.
  exists (cleaned w), (cleaned (cleaned w)). rewrite !run_cleanup.
  split; [done|]. split; [done|]. rewrite cleaned_twice.
  repeat split. intros Hl. unfold cleaned. by rewrite Hl.
Qed.

(** X12: [cleanup] after [start_listening] asks for the cancellation of the
    listener task that was just created, and of no other task: the task
    table grows by the listener, marked as cancelled on request, the
    manager keeps its handle, and the one log record is that of
    [cleanup]. *)
Theorem X12_cleanup_cancels_the_listener (w : world) :
  exists w',
    run (start_listening ;;; cleanup) w = (w', Returned tt) /\
    tasks w' = tasks w ++ [Task ListenTask false true] /\
    listener_task (manager w') = Some (length (tasks w)) /\
    logged w' = logged w ++ [LogCleanedUp] /\
    futures w' = futures w /\
    pending_mcp_requests (manager w') = pending_mcp_requests (manager w).
Proof.
  rewrite run_bind. cbn [start_listening create_task get bind run modify].
  rewrite run_cleanup. eexists. split; [reflexivity|].
  unfold cleaned.
  cbn [manager tasks listener_task with_manager with_tasks set_listener_task].
  rewrite (list_lookup_middle (tasks w) [] _ _ eq_refl).
  cbn [task_done task_body manager tasks listener_task with_manager with_tasks
       set_listener_task log1 with_logged logged futures pending_mcp_requests].
  repeat split.
  rewrite insert_app_r_alt by lia. by rewrite Nat.sub_diag.
Qed.

(** ** Work items on a websocket that fails *)

Section WorkItemFailures.
Variable py_str : pyval -> string.

(** X13: when the websocket refuses every send with an [Exception],
    [process_agent_message] raises it. While no agent is bound it has tried
    one send, that of "Agent not ready". With an agent bound, the failure
    of sending the result is caught by the method's own [except], logged as
    an agent error, and answered by a second send, of an error frame with
    the text of the failure; that send fails outside any handler. *)
Theorem X13_a_reply_that_cannot_be_sent
    (message message_id : pyval) (w : world) (o : outcomes) (e : exn) :
  (forall payload, of_send o payload = inl e) ->
  is_Exception e = true ->
  (agent_executor (manager w) = None ->
   drive o (process_agent_message py_str message message_id) w []
   = (w, [with_message_id [("error", PyStr "Agent not ready")] message_id], inl e)) /\
  (forall d,
      is_Some (agent_executor (manager w)) -> of_invoke o = inr (PyDict d) ->
      drive o (process_agent_message py_str message message_id) w []
      = (log1 (LogAgentError e) w,
         [with_message_id
            [("result", default (PyStr (py_str (PyDict d))) (dict_lookup d "output"))]
            message_id;
          with_message_id [("error", PyStr (exn_str e))] message_id],
         inl e)).
Proof.
  intros Hsend He. unfold process_agent_message. cbn. split.
  - intros ->. cbn. by rewrite Hsend.
  - intros d [ex ->] Ho. cbn. rewrite Ho. cbn. rewrite Hsend. cbn.
    rewrite He. cbn. by rewrite Hsend.
Qed.

(** X14: when its task is cancelled while the agent runs,
    [process_agent_message] sends nothing, logs nothing and lets the
    cancellation through: the work item gets no reply. *)
Theorem X14_a_cancelled_work_item_gets_no_reply
    (message message_id : pyval) (w : world) (o : outcomes) (e : exn) :
  is_Some (agent_executor (manager w)) ->
  of_invoke o = inl e ->
  is_Exception e = false ->
  drive o (process_agent_message py_str message message_id) w [] = (w, [], inl e).
Proof.
  intros [ex Hex] Ho He. unfold process_agent_message. cbn. rewrite Hex. cbn.
  rewrite Ho. cbn. by rewrite He.
Qed.
End WorkItemFailures.

(** The work item [{"message": "A", "messageId": "7"}] on a closed
    websocket, before discovery is over and after. *)
Lemma X13_witness :
  drive (unsendable closed_socket (inr (PyDict [("output", PyStr "done")])))
    (process_agent_message str_of_str (PyStr "A") (PyStr "7")) world_init []
  = (world_init,
     [PyDict [("error", PyStr "Agent not ready"); ("messageId", PyStr "7")]],
     inl closed_socket) /\
  drive (unsendable closed_socket (inr (PyDict [("output", PyStr "done")])))
    (process_agent_message str_of_str (PyStr "A") (PyStr "7")) ready []
  = (log1 (LogAgentError closed_socket) ready,
     [PyDict [("result", PyStr "done"); ("messageId", PyStr "7")];
      PyDict [("error", PyStr "WebSocket is not connected"); ("messageId", PyStr "7")]],
     inl closed_socket).
Proof.
  destruct (X13_a_reply_that_cannot_be_sent str_of_str (PyStr "A") (PyStr "7")
              world_init
              (unsendable closed_socket (inr (PyDict [("output", PyStr "done")])))
              closed_socket (fun _ => eq_refl) eq_refl) as [Hnone _].
  destruct (X13_a_reply_that_cannot_be_sent str_of_str (PyStr "A") (PyStr "7")
              ready
              (unsendable closed_socket (inr (PyDict [("output", PyStr "done")])))
              closed_socket (fun _ => eq_refl) eq_refl) as [_ Hsome].
  split; [exact (Hnone eq_refl)|].
  exact (Hsome _ (mk_is_Some _ _ eq_refl) eq_refl).
Defined.

(** The work item [{"message": "A"}], the agent's task being cancelled. *)
Lemma X14_witness :
  drive (answering (inr PyNone) (inl cancelled))
    (process_agent_message str_of_str (PyStr "A") PyNone) ready []
  = (ready, [], inl cancelled).
Proof.
  exact (X14_a_cancelled_work_item_gets_no_reply str_of_str (PyStr "A") PyNone ready
           (answering (inr PyNone) (inl cancelled)) cancelled
           (mk_is_Some _ _ eq_refl) eq_refl eq_refl).
Defined.

(** ** Tools and discovery off the expected path *)

Section ToolFailures.
Variable py_str : pyval -> string.
Variable pyobj : Type.
Variable to_jsonable_python : pyobj -> res pyval.
Variable jsonschema_to_pydantic : pyval -> res pymodel.

(** X15: keyword arguments that do not serialise are not sent: [_arun]
    returns the error string with the text of the failure, and the manager
    is as it was (no request id is used, nothing is pending), whatever the
    websocket and the peer would have done. *)
Theorem X15_unserialisable_arguments_are_not_sent
    (self : DynamicMCPTool) (kwargs : pyobj) (w : world) (o : outcomes) (e : exn) :
  to_jsonable_python kwargs = inl e ->
  is_Exception e = true ->
  drive o (_arun py_str pyobj to_jsonable_python self kwargs) w []
  = (w, [], inr ("Error calling " ++ name self ++ ": " ++ exn_str e)%string).
Proof.
  intros Hargs He. unfold _arun. rewrite Hargs. cbn. by rewrite He.
Qed.

Ltac arun_ends :=
  eexists _, _, _; (split; [reflexivity|]); cbn; (split; [lia|]); (split; [lia|]);
  let e := fresh "e" in
  let H := fresh "H" in
  intros e H; first [discriminate H | injection H as <-; first [reflexivity | congruence]].

(** X16: whatever the serialiser, the websocket and the peer do, [_arun]
    passes at most one frame to [send_text], uses at most one request id,
    and raises no [Exception]: what it raises, if anything, is a
    cancellation. *)
Theorem X16_arun_raises_no_exception
    (self : DynamicMCPTool) (kwargs : pyobj) (w : world) (o : outcomes) :
  exists w' sent returned,
    drive o (_arun py_str pyobj to_jsonable_python self kwargs) w []
    = (w', sent, returned) /\
    (length sent <= 1)%nat /\
    mcp_request_id (manager w) <= mcp_request_id (manager w')
                               <= mcp_request_id (manager w) + 1 /\
    (forall e, returned = inl e -> is_Exception e = false).
Proof.
  unfold _arun, send_mcp_request.
  destruct (to_jsonable_python kwargs) as [e|arguments]; cbn.
  { destruct (is_Exception e) eqn:He; cbn; arun_ends. }
  destruct (of_send o _) as [e|[]]; cbn.
  { destruct e as [[] msg]; cbn; arun_ends. }
  destruct (of_future o) as [e|response]; cbn.
  { destruct e as [[] msg]; cbn; arun_ends. }
  destruct (py_contains "error" response) as [e|[]] eqn:Hc; cbn.
  - destruct response; cbn in Hc; try discriminate; injection Hc as <-; cbn; arun_ends.
  - destruct (py_getitem response "error") as [e|error] eqn:Hg; cbn; [|arun_ends].
    destruct response; cbn in Hg; try discriminate;
      try (injection Hg as <-; cbn; arun_ends).
    destruct (dict_lookup _ _); [discriminate|]. injection Hg as <-. cbn. arun_ends.
  - destruct (py_get response "result" (PyDict [])) as [e|result] eqn:Hg; cbn;
      [|arun_ends].
    destruct response; cbn in Hg; try discriminate; injection Hg as <-; cbn; arun_ends.
Qed.
End ToolFailures.

(** The tool "fill" called with an object that has no serialiser. *)
Lemma X15_witness :
  drive answers_ok (_arun str_of_str (option pyval) serialise fill_tool None)
    world_init []
  = (world_init, [], inr "Error calling fill: Unable to serialize unknown type").
Proof.
  exact (X15_unserialisable_arguments_are_not_sent str_of_str (option pyval) serialise
           fill_tool None world_init answers_ok _ eq_refl eq_refl).
Defined.

Section DiscoveryFailures.
Variable jsonschema_to_pydantic : pyval -> res pymodel.
Hypothesis converter_raises_exceptions :
  forall schema e, jsonschema_to_pydantic schema = inl e -> is_Exception e = true.

(** X17: one descriptor that is not an object with a string "name" and a
    string "description" makes discovery return no tool at all, the
    well-formed descriptors before it included: the failure leaves the
    loop, is logged by the outer handler, and the empty list is returned.
    The descriptors are what iterating over "tools" gives, so the keys of
    an object or the characters of a string count as such. *)
Theorem X17_one_bad_descriptor_loses_every_tool
    (w : world) (o : outcomes) (d result : list (string * pyval))
    (tools_data : pyval) (items : list pyval) :
  (forall payload, of_send o payload = inr tt) ->
  of_future o = inr (PyDict d) ->
  dict_lookup d "error" = None ->
  dict_lookup d "result" = Some (PyDict result) ->
  dict_lookup result "tools" = Some tools_data ->
  py_iter tools_data = inr items ->
  Exists (fun info => is_descriptor info = false) items ->
  exists w' e,
    drive o (discover_and_create_tools jsonschema_to_pydantic) w []
    = (w', [request_frame "tools/list" PyNone (mcp_request_id (manager w) + 1)], inr []) /\
    last (logged w') = Some (LogDiscoveryError e) /\
    manager w' = manager (issued w) /\ futures w' = futures (issued w).
Proof.
  intros Hsend Ho Herr Hres Htools Hiter Hbad.
  by eapply (discover_malformed jsonschema_to_pydantic converter_raises_exceptions).
Qed.

(** X18: a reply to discovery whose "result" is no object, or whose
    "tools" is null, a boolean or a number, gives no tool: the
    [AttributeError] or [TypeError] is logged by the outer handler and the
    empty list is returned. *)
Theorem X18_a_reply_without_a_tool_list_gives_no_tool
    (w : world) (o : outcomes) (d : list (string * pyval)) (r : pyval) :
  (forall payload, of_send o payload = inr tt) ->
  of_future o = inr (PyDict d) ->
  dict_lookup d "error" = None ->
  dict_lookup d "result" = Some r ->
  (is_object r = false \/
   exists result tools_data,
     r = PyDict result /\ dict_lookup result "tools" = Some tools_data /\
     scalar tools_data = true) ->
  exists e,
    drive o (discover_and_create_tools jsonschema_to_pydantic) w []
    = (log1 (LogDiscoveryError e) (issued w),
       [request_frame "tools/list" PyNone (mcp_request_id (manager w) + 1)],
       inr []) /\
    (exn_class_of e = AttributeError \/ exn_class_of e = TypeError).
Proof.
  intros Hsend Ho Herr Hres Hbad. unfold discover_and_create_tools.
  rewrite drive_try_except, drive_bind, drive_send_mcp_request, Ho by done.
  cbn [app py_contains lift bind]. rewrite Herr.
  rewrite bool_decide_eq_false_2 by (by intros [? ?]).
  cbn [py_get lift bind]. rewrite Hres.
  destruct Hbad as [Hr|(result & tools_data & -> & Htools & Hscalar)].
  - destruct r; try discriminate; cbn; eexists; (split; [reflexivity|by left]).
  - cbn [py_get lift bind]. rewrite Htools.
    destruct tools_data; try discriminate; cbn; eexists; (split; [reflexivity|by right]).
Qed.
End DiscoveryFailures.

(** A peer that lists a tool and, after it, a descriptor without a
    "description". *)
Lemma X17_witness :
  exists w' e,
    drive lists_a_bad_descriptor (discover_and_create_tools strict_converter)
      world_init []
    = (w', [request_frame "tools/list" PyNone 1], inr []) /\
    last (logged w') = Some (LogDiscoveryError e).
Proof.
  destruct (X17_one_bad_descriptor_loses_every_tool strict_converter
              strict_converter_raises world_init lists_a_bad_descriptor
              _ _ _ one_bad_descriptor (fun _ => eq_refl) eq_refl eq_refl eq_refl
              eq_refl eq_refl)
    as (w' & e & Hrun & Hlog & _).
  { apply Exists_cons_tl, Exists_cons_hd. reflexivity. }
  exists w', e. split; [exact Hrun|exact Hlog].
Defined.

(** A peer that answers discovery with ["tools": null]. *)
Lemma X18_witness :
  exists e,
    drive lists_null (discover_and_create_tools strict_converter) world_init []
    = (log1 (LogDiscoveryError e) (issued world_init),
       [request_frame "tools/list" PyNone 1], inr []) /\
    (exn_class_of e = AttributeError \/ exn_class_of e = TypeError).
Proof.
  destruct (X18_a_reply_without_a_tool_list_gives_no_tool strict_converter
              world_init lists_null _ _ (fun _ => eq_refl) eq_refl eq_refl eq_refl)
    as (e & Hrun & Hclass).
  { right. eexists _, _. split; [reflexivity|]. split; reflexivity. }
  exists e. split; [exact Hrun|exact Hclass].
Defined.
